(** * WWMI VG Fixer: vertex-group renaming, verified against its source

    A shallow embedding of the two released versions of the add-on
    ([WWMI_VG_Fixer_v1.0.0/WWMI_VG_Fixer.py] and
    [WWMI_VG_Fixer_v1.1.0/WWMI_VG_Fixer.py]) and the properties of their
    two operators, Auto Fix and Remove "Check" Prefix.

    Layout: the Python builtins the operators call ([Py]), the part of the
    host object model they touch ([Bpy]), the metadata document
    ([Metadata]), the code shared by both versions ([Common]), then one
    module per version ([V1_0_0], [V1_1_0]), the vocabulary of the
    statements, the lemmas and the theorems. *)

From Stdlib Require Import ZArith String Ascii List Bool Lia.
From Stdlib Require Import DecimalString DecimalPos DecimalZ.
From Stdlib Require Import QArith_base.
From stdpp Require Import base list strings gmap.

Local Open Scope Z_scope.

(** ** Python builtins *)

Module Py.

(** Exceptions the operators can meet. *)
Inductive exc : Type :=
  | OSError
  | JSONDecodeError
  | KeyError
  | IndexError
  | ValueError.

(** A computation that returns a value or raises. *)
Definition M (A : Type) : Type := (exc + A)%type.

Definition ret {A} (a : A) : M A := inr a.
Definition raise {A} (e : exc) : M A := inl e.
Definition bind {A B} (m : M A) (k : A -> M B) : M B :=
  match m with
  | inl e => inl e
  | inr a => k a
  end.

(** Names are Python [str] values.  They are modelled as [string], i.e.
    sequences of code points below 256.  In that range the characters of
    Unicode category Nd (what [\d] matches and what [int] reads as a digit)
    are exactly '0'..'9'. *)

Definition code (c : ascii) : N := N_of_ascii c.

(** [\d] on a [str] pattern, and the digits [int] accepts. *)
Definition isdecimal (c : ascii) : bool :=
  ((48 <=? code c) && (code c <=? 57))%N.

(** [\s] on a [str] pattern: [str.isspace] characters. *)
Definition re_space (c : ascii) : bool :=
  (((9 <=? code c) && (code c <=? 13)) ||
   ((28 <=? code c) && (code c <=? 32)) ||
   (code c =? 133) || (code c =? 160))%N.

(** The whitespace [int] strips from both ends of its argument: of the
    ASCII characters only tab, LF, VT, FF, CR and space; the Latin-1 ones
    0x85 and 0xA0 are first mapped to a space. *)
Definition int_space (c : ascii) : bool :=
  (((9 <=? code c) && (code c <=? 13)) ||
   (code c =? 32) || (code c =? 133) || (code c =? 160))%N.

Definition digit_value (c : ascii) : Z := Z.of_N (code c) - 48.

Fixpoint take_while (p : ascii -> bool) (s : string) : string :=
  match s with
  | EmptyString => EmptyString
  | String c r => if p c then String c (take_while p r) else EmptyString
  end.

Fixpoint drop_while (p : ascii -> bool) (s : string) : string :=
  match s with
  | EmptyString => EmptyString
  | String c r => if p c then drop_while p r else s
  end.

Fixpoint all_chars (p : ascii -> bool) (s : string) : bool :=
  match s with
  | EmptyString => true
  | String c r => p c && all_chars p r
  end.

Definition is_empty (s : string) : bool :=
  match s with
  | EmptyString => true
  | String _ _ => false
  end.

(** [s[len(p):]] when [s.startswith(p)]. *)
Fixpoint strip_prefix (p s : string) : option string :=
  match p with
  | EmptyString => Some s
  | String a p' =>
      match s with
      | EmptyString => None
      | String b s' => if Ascii.eqb a b then strip_prefix p' s' else None
      end
  end.

(** [s.startswith(p)] *)
Definition startswith (s p : string) : bool :=
  match strip_prefix p s with
  | Some _ => true
  | None => false
  end.

Fixpoint rstrip (p : ascii -> bool) (s : string) : string :=
  match s with
  | EmptyString => EmptyString
  | String c r =>
      let r' := rstrip p r in
      if is_empty r' && p c then EmptyString else String c r'
  end.

Definition strip (p : ascii -> bool) (s : string) : string :=
  rstrip p (drop_while p s).

(** The digits of an [int] literal after its first digit: more digits,
    each optionally preceded by one underscore. *)
Fixpoint int_tail (acc : Z) (s : string) : option Z :=
  match s with
  | EmptyString => Some acc
  | String c r =>
      if isdecimal c then int_tail (acc * 10 + digit_value c) r
      else if Ascii.eqb c "_" then
        match r with
        | EmptyString => None
        | String d r' =>
            if isdecimal d then int_tail (acc * 10 + digit_value d) r'
            else None
        end
      else None
  end.

Definition int_digits (s : string) : option Z :=
  match s with
  | EmptyString => None
  | String c r => if isdecimal c then int_tail (digit_value c) r else None
  end.

(** [int(s)] for a [str] argument and the default base 10; [None] is
    [ValueError].  Surrounding whitespace is stripped, one sign is
    accepted, leading zeros are accepted.  The interpreter's limit on the
    number of digits (4300 by default, for [int] and [str] alike) is left
    out: the host keeps the name of a vertex group under 64 bytes. *)
Definition int (s : string) : option Z :=
  match strip int_space s with
  | EmptyString => None
  | String c r =>
      if Ascii.eqb c "-" then option_map Z.opp (int_digits r)
      else if Ascii.eqb c "+" then int_digits r
      else int_digits (String c r)
  end.

(** [str(n)] for an [int]. *)
Definition str (n : Z) : string := NilZero.string_of_int (Z.to_int n).

(** [max(iterable)] over integers; raises [ValueError] on an empty one. *)
Definition max (l : list Z) : M Z :=
  match l with
  | [] => raise ValueError
  | x :: r => ret (fold_left Z.max r x)
  end.

End Py.

Notation "x <-- m ;; k" := (Py.bind m (fun x => k))
  (at level 100, m at next level, right associativity).

(** ** The host object model, as far as the operators use it *)

Module Bpy.

(** One entry of [v.groups]: the index of a vertex group and the weight
    of the vertex in it.  The weight is never read by the add-on. *)
Record VertexGroupElement : Type := {
  group : nat;
  weight : Q
}.

Record MeshVertex : Type := {
  groups : list VertexGroupElement
}.

(** A scene object.  [vertex_groups] holds the names of the object's
    vertex groups in order; [vg.index] is the position in that list.
    [vertices] is [obj.data.vertices].  Assigning [vg.name] is taken as a
    plain store of the new string, as in the specification's in-memory
    model of a vertex-group list. *)
Record Object : Type := {
  obj_type : string;
  obj_name : string;
  vertex_groups : list string;
  vertices : list MeshVertex
}.

Definition set_vertex_groups (obj : Object) (vgs : list string) : Object :=
  {| obj_type := obj_type obj;
     obj_name := obj_name obj;
     vertex_groups := vgs;
     vertices := vertices obj |}.

(** What removing the group at index [j] does to one vertex: its entry for
    [j] goes away and entries for later groups move down by one. *)
Definition reindex (j : nat) (v : MeshVertex) : MeshVertex :=
  {| groups :=
       omap (fun g =>
               if Nat.eqb (group g) j then None
               else if Nat.ltb j (group g)
                    then Some {| group := Nat.pred (group g);
                                 weight := weight g |}
                    else Some g)
            (groups v) |}.

(** [obj.vertex_groups.remove(vg)] for the group whose current index is [j]. *)
Definition vertex_groups_remove (obj : Object) (j : nat) : Object :=
  {| obj_type := obj_type obj;
     obj_name := obj_name obj;
     vertex_groups := delete j (vertex_groups obj);
     vertices := map (reindex j) (vertices obj) |}.

(** What an operator hands back: the set it returns together with its
    [self.report] call, or an exception nobody caught. *)
Inductive status : Type := CANCELLED | FINISHED.

Inductive level : Type := ERROR | INFO.

Inductive message : Type :=
  | PathNotSet                    (* "Metadata JSON path is not set." *)
  | FileNotFound (path : string)  (* "File not found: <path>" *)
  | ReadFailed (e : Py.exc)       (* "Failed to read metadata JSON: <e>" *)
  | NoComponents                  (* "Invalid metadata: ..." *)
  | MaxVGFailed (e : Py.exc)      (* "Failed to compute max VG: <e>" *)
  | AutoFixed (n : nat)
      (* 1.0.0: "Auto fixed vertex groups on <n> mesh object(s)."
         1.1.0: "Processed <n> objects" *)
  | PrefixRemoved (n : nat).
      (* 1.0.0: "Removed 'Check' prefix on <n> mesh object(s)."
         1.1.0: "Updated <n> objects" *)

Inductive outcome : Type :=
  | Returned (s : status) (l : level) (m : message)
  | Uncaught (e : Py.exc).

End Bpy.

(** ** The metadata document *)

Module Metadata.

(** One entry of ["components"]; [vg_map] is [None] when the component has
    no ["vg_map"] key. *)
Record Component : Type := {
  vg_map : option (gmap string Z)
}.

(** The parsed JSON object; [components] is [metadata.get("components")]. *)
Record Document : Type := {
  components : option (list Component)
}.

(** [d.values()] *)
Definition values (d : gmap string Z) : list Z := (map_to_list d).*2.

End Metadata.

(** What an invocation of an operator reads: the two scene properties, the
    file system at the metadata path, and the selection. *)
Record Context : Type := {
  wwmi_vg_metadata_path : string;        (* after [bpy.path.abspath] *)
  isfile : bool;                         (* [os.path.isfile(metadata_path)] *)
  json_load : Py.M Metadata.Document;    (* [open] followed by [json.load] *)
  wwmi_vg_remove_zero : bool;
  selected_objects : list Bpy.Object
}.

(** ** Code that is the same in both versions *)

Module Common.
Import Bpy Metadata.

(** *** [remove_zero_weight_vgroups] *)

(** The two inner loops: does some vertex list the group [index]? *)
Definition used (obj : Object) (index : nat) : bool :=
  existsb (fun v => existsb (fun g => Nat.eqb (group g) index) (groups v))
          (vertices obj).

(** The scan.  The groups still to visit are [vgs], the first of them has
    index [index]; the result is [vg_to_delete].  A collected group is
    represented by the index it has during the scan. *)
Fixpoint scan (obj : Object) (index : nat) (vgs : list string) : list nat :=
  match vgs with
  | [] => []
  | _ :: rest =>
      if used obj index then scan obj (S index) rest
      else index :: scan obj (S index) rest
  end.

(** The removal loop.  [removed] groups are gone already, all of them from
    before the one now removed, so a group collected at index [i] sits at
    [i - removed]. *)
Fixpoint remove_all (removed : nat) (vg_to_delete : list nat) (obj : Object)
  : Object :=
  match vg_to_delete with
  | [] => obj
  | i :: rest =>
      remove_all (S removed) rest (vertex_groups_remove obj (i - removed)%nat)
  end.

Definition remove_zero_weight_vgroups (obj : Object) : Object :=
  let vg_to_delete := scan obj 0 (vertex_groups obj) in
  remove_all 0 vg_to_delete obj.

(** *** The regular expressions *)

(** [Component\s*(\d+)] tried at the start of [s]; the result is group 1.
    Both repetitions are greedy, and giving back a character never helps:
    after fewer spaces comes a space, not a digit, and nothing follows the
    digits. *)
Definition comp_name_match_here (s : string) : option string :=
  match Py.strip_prefix "Component" s with
  | None => None
  | Some r =>
      let digits := Py.take_while Py.isdecimal (Py.drop_while Py.re_space r) in
      if Py.is_empty digits then None else Some digits
  end.

(** [comp_name_pattern.search(s)]: the leftmost position that matches. *)
Fixpoint comp_name_search (s : string) : option string :=
  match comp_name_match_here s with
  | Some g => Some g
  | None =>
      match s with
      | EmptyString => None
      | String _ r => comp_name_search r
      end
  end.

Definition newline : string := String (ascii_of_nat 10) EmptyString.

(** [re.compile(r"^Check(\d+)$").match(s)]; the result is group 1.  Python's
    [$] matches at the end of the string and also just before a newline
    that ends the string. *)
Definition check_pattern_match (s : string) : option string :=
  match Py.strip_prefix "Check" s with
  | None => None
  | Some r =>
      let digits := Py.take_while Py.isdecimal r in
      let rest := Py.drop_while Py.isdecimal r in
      if Py.is_empty digits then None
      else if Py.is_empty rest || String.eqb rest newline then Some digits
      else None
  end.

(** *** The loop over [context.selected_objects] *)

(** [body] gives the object as the iteration leaves it and whether the
    iteration counted it.  An exception ends the loop; the objects not yet
    reached stay as they are. *)
Fixpoint for_objects (body : Object -> Py.M (Object * bool))
    (objs : list Object) (count : nat) : list Object * Py.M nat :=
  match objs with
  | [] => ([], Py.ret count)
  | obj :: rest =>
      match body obj with
      | inl e => (obj :: rest, Py.raise e)
      | inr (obj', counted) =>
          let '(rest', r) :=
            for_objects body rest (if counted then S count else count) in
          (obj' :: rest', r)
      end
  end.

(** *** The body of the Remove "Check" Prefix loop *)

(** One vertex group: the name it has afterwards. *)
Definition remove_check_prefix_name (name : string) : string :=
  match check_pattern_match name with
  | Some new_name => new_name
  | None => name
  end.

Definition has_check_prefix (name : string) : bool :=
  match check_pattern_match name with
  | Some _ => true
  | None => false
  end.

(** One selected object; [changed] is the second component. *)
Definition remove_check_prefix_object (obj : Object) : Py.M (Object * bool) :=
  if negb (String.eqb (obj_type obj) "MESH") then Py.ret (obj, false)
  else
    let changed := existsb has_check_prefix (vertex_groups obj) in
    Py.ret (set_vertex_groups obj
              (map remove_check_prefix_name (vertex_groups obj)),
            changed).

Definition remove_check_prefix (ctx : Context) : outcome * list Object :=
  let '(objs, r) := for_objects remove_check_prefix_object
                      (selected_objects ctx) 0 in
  match r with
  | inl e => (Uncaught e, objs)
  | inr processed => (Returned FINISHED INFO (PrefixRemoved processed), objs)
  end.

(** *** The vertex-group loop of Auto Fix *)

(** The branch a vertex group ends in, named after the line it prints. *)
Inductive action : Type :=
  | NotNumeric                       (* "not numeric, skipped" / "skip text" *)
  | KeptAboveThreshold               (* "kept (above threshold)" *)
  | MarkedCheck (new_name : string)  (* "(exception / Check)" *)
  | KeptHasCheck                     (* "already has Check, kept" *)
  | KeptException                    (* "kept (exception, CompMaxVG<256)" *)
  | Remapped (new_name : string).    (* "(+256)" *)

(** [vg.name] after the iteration. *)
Definition name_after (original_name : string) (a : action) : string :=
  match a with
  | MarkedCheck new_name => new_name
  | Remapped new_name => new_name
  | _ => original_name
  end.

(** What the header of the object loop finds out about an object. *)
Inductive lookup : Type :=
  | NotMesh
  | NoComponentId
  | OutOfRange (comp_id : Z)
  | NoVgMap (comp_id : Z)
  | Found (comp_id : Z) (exception_vgs : gset Z) (component_max_vg : Z).

(** [int(m.group(1))] *)
Definition int_or_raise (s : string) : Py.M Z :=
  match Py.int s with
  | Some n => Py.ret n
  | None => Py.raise Py.ValueError
  end.

(** [components[comp_id]] for [0 <= comp_id] *)
Definition index (components : list Component) (comp_id : Z)
  : Py.M Component :=
  match components !! Z.to_nat comp_id with
  | Some comp => Py.ret comp
  | None => Py.raise Py.IndexError
  end.

(** [comp["vg_map"]] *)
Definition getitem_vg_map (comp : Component) : Py.M (gmap string Z) :=
  match vg_map comp with
  | Some d => Py.ret d
  | None => Py.raise Py.KeyError
  end.

(** [v for comp in components for v in comp["vg_map"].values()], run to
    its end. *)
Fixpoint all_values (components : list Component) : Py.M (list Z) :=
  match components with
  | [] => Py.ret []
  | comp :: rest =>
      d <-- getitem_vg_map comp ;;
      vs <-- all_values rest ;;
      Py.ret (values d ++ vs)
  end.

(** [max(v for comp in components for v in comp["vg_map"].values())] *)
Definition merged_max (components : list Component) : Py.M Z :=
  vs <-- all_values components ;;
  Py.max vs.

End Common.

(** ** Version 1.0.0 *)

Module V1_0_0.
Import Bpy Common.

Definition remove_zero_weight_vgroups := Common.remove_zero_weight_vgroups.

(** What [execute] holds when the object loop starts. *)
Record Loaded : Type := {
  components : list Metadata.Component;
  merged_max_vg : Z;
  threshold : Z
}.

(** [execute] up to the object loop: an early return, or the values the
    loop works with. *)
Definition load (ctx : Context) : outcome + Loaded :=
  let metadata_path := wwmi_vg_metadata_path ctx in
  if Py.is_empty metadata_path then
    inl (Returned CANCELLED ERROR PathNotSet)
  else if negb (isfile ctx) then
    inl (Returned CANCELLED ERROR (FileNotFound metadata_path))
  else
    match json_load ctx with
    | inl e => inl (Returned CANCELLED ERROR (ReadFailed e))
    | inr metadata =>
        match Metadata.components metadata with
        | None | Some [] => inl (Returned CANCELLED ERROR NoComponents)
        | Some components =>
            match merged_max components with
            | inl e => inl (Returned CANCELLED ERROR (MaxVGFailed e))
            | inr merged_max_vg =>
                inr {| components := components;
                       merged_max_vg := merged_max_vg;
                       threshold := merged_max_vg - 256 |}
            end
        end
    end.

(** The object loop from its [obj.type] test to [component_max_vg]. *)
Definition find_component (components : list Metadata.Component)
    (obj : Object) : Py.M lookup :=
  if negb (String.eqb (obj_type obj) "MESH") then Py.ret NotMesh
  else
    match comp_name_search (obj_name obj) with
    | None => Py.ret NoComponentId
    | Some g1 =>
        comp_id <-- int_or_raise g1 ;;
        if comp_id >=? Z.of_nat (length components) then
          Py.ret (OutOfRange comp_id)
        else
          comp <-- index components comp_id ;;
          let vg_map := default ∅ (Metadata.vg_map comp) in
          if bool_decide (vg_map = ∅) then Py.ret (NoVgMap comp_id)
          else
            let exception_vgs : gset Z :=
              list_to_set (Metadata.values vg_map) in
            component_max_vg <-- Py.max (elements exception_vgs) ;;
            Py.ret (Found comp_id exception_vgs component_max_vg)
    end.

(** One iteration of [for vg in obj.vertex_groups]. *)
Definition fix_vg (threshold : Z) (exception_vgs : gset Z)
    (component_max_vg : Z) (original_name : string) : action :=
  match Py.int original_name with
  | None => NotNumeric
  | Some vg_num =>
      if vg_num >? threshold then KeptAboveThreshold
      else if bool_decide (vg_num ∈ exception_vgs) then
        if component_max_vg >=? 256 then
          if negb (Py.startswith original_name "Check") then
            MarkedCheck ("Check" +:+ original_name)
          else KeptHasCheck
        else KeptException
      else Remapped (Py.str (vg_num + 256))
  end.

(** The whole vertex-group loop on one object. *)
Definition fix_vgs (threshold : Z) (exception_vgs : gset Z)
    (component_max_vg : Z) (obj : Object) : Object :=
  set_vertex_groups obj
    (map (fun original_name =>
            name_after original_name
              (fix_vg threshold exception_vgs component_max_vg original_name))
         (vertex_groups obj)).

(** One iteration of [for obj in context.selected_objects]. *)
Definition fix_object (l : Loaded) (remove_zero : bool) (obj : Object)
  : Py.M (Object * bool) :=
  r <-- find_component (components l) obj ;;
  match r with
  | Found _ exception_vgs component_max_vg =>
      let obj1 := fix_vgs (threshold l) exception_vgs component_max_vg obj in
      Py.ret (if remove_zero then remove_zero_weight_vgroups obj1 else obj1,
              true)
  | _ => Py.ret (obj, false)
  end.

Definition WWMI_OT_auto_fix_vgs_execute (ctx : Context)
  : outcome * list Object :=
  match load ctx with
  | inl out => (out, selected_objects ctx)
  | inr l =>
      let '(objs, r) :=
        for_objects (fix_object l (wwmi_vg_remove_zero ctx))
                    (selected_objects ctx) 0 in
      match r with
      | inl e => (Uncaught e, objs)
      | inr processed_objects =>
          (Returned FINISHED INFO (AutoFixed processed_objects), objs)
      end
  end.

Definition WWMI_OT_remove_check_prefix_execute (ctx : Context)
  : outcome * list Object :=
  Common.remove_check_prefix ctx.

End V1_0_0.

(** ** Version 1.1.0 *)

Module V1_1_0.
Import Bpy Common.

Definition remove_zero_weight_vgroups := Common.remove_zero_weight_vgroups.

Record Loaded : Type := {
  components : list Metadata.Component;
  merged_max_vg : Z;
  threshold : Z;
  global_exception_vgs : gset Z
}.

(** [for comp_id, comp in enumerate(components)] with the set built so
    far in [acc]. *)
Fixpoint global_exceptions (comp_id : nat)
    (components : list Metadata.Component) (acc : gset Z) : Py.M (gset Z) :=
  match components with
  | [] => Py.ret acc
  | comp :: rest =>
      if (3 <=? comp_id)%nat then
        d <-- getitem_vg_map comp ;;
        global_exceptions (S comp_id) rest
          (acc ∪ list_to_set (Metadata.values d))
      else global_exceptions (S comp_id) rest acc
  end.

(** [execute] up to the object loop.  Nothing here is inside a [try]. *)
Definition load (ctx : Context) : outcome + Loaded :=
  let metadata_path := wwmi_vg_metadata_path ctx in
  if Py.is_empty metadata_path || negb (isfile ctx) then
    inl (Returned CANCELLED ERROR (FileNotFound metadata_path))
  else
    match json_load ctx with
    | inl e => inl (Uncaught e)
    | inr metadata =>
        match Metadata.components metadata with
        | None | Some [] => inl (Returned CANCELLED ERROR NoComponents)
        | Some components =>
            match merged_max components with
            | inl e => inl (Uncaught e)
            | inr merged_max_vg =>
                match global_exceptions 0 components ∅ with
                | inl e => inl (Uncaught e)
                | inr global_exception_vgs =>
                    inr {| components := components;
                           merged_max_vg := merged_max_vg;
                           threshold := merged_max_vg - 256;
                           global_exception_vgs := global_exception_vgs |}
                end
            end
        end
    end.

(** The object loop from its [obj.type] test to [component_max_vg]; the
    exception set found is [local_vg_map]. *)
Definition find_component (components : list Metadata.Component)
    (obj : Object) : Py.M lookup :=
  if negb (String.eqb (obj_type obj) "MESH") then Py.ret NotMesh
  else
    match comp_name_search (obj_name obj) with
    | None => Py.ret NoComponentId
    | Some g1 =>
        comp_id <-- int_or_raise g1 ;;
        if comp_id >=? Z.of_nat (length components) then
          Py.ret (OutOfRange comp_id)
        else
          comp <-- index components comp_id ;;
          d <-- getitem_vg_map comp ;;
          let local_vg_map : gset Z := list_to_set (Metadata.values d) in
          component_max_vg <-- Py.max (elements local_vg_map) ;;
          Py.ret (Found comp_id local_vg_map component_max_vg)
    end.

(** One iteration of [for vg in obj.vertex_groups]. *)
Definition fix_vg (threshold : Z) (global_exception_vgs local_vg_map : gset Z)
    (component_max_vg : Z) (original_name : string) : action :=
  match Py.int original_name with
  | None => NotNumeric
  | Some vg_num =>
      if vg_num >? threshold then KeptAboveThreshold
      else if bool_decide (vg_num ∈ global_exception_vgs)
              || bool_decide (vg_num ∈ local_vg_map) then
        if component_max_vg >=? 256 then
          if negb (Py.startswith original_name "Check") then
            MarkedCheck ("Check" +:+ original_name)
          else KeptHasCheck
        else KeptException
      else Remapped (Py.str (vg_num + 256))
  end.

Definition fix_vgs (threshold : Z) (global_exception_vgs local_vg_map : gset Z)
    (component_max_vg : Z) (obj : Object) : Object :=
  set_vertex_groups obj
    (map (fun original_name =>
            name_after original_name
              (fix_vg threshold global_exception_vgs local_vg_map
                 component_max_vg original_name))
         (vertex_groups obj)).

Definition fix_object (l : Loaded) (remove_zero : bool) (obj : Object)
  : Py.M (Object * bool) :=
  r <-- find_component (components l) obj ;;
  match r with
  | Found _ local_vg_map component_max_vg =>
      let obj1 := fix_vgs (threshold l) (global_exception_vgs l) local_vg_map
                    component_max_vg obj in
      Py.ret (if remove_zero then remove_zero_weight_vgroups obj1 else obj1,
              true)
  | _ => Py.ret (obj, false)
  end.

Definition WWMI_OT_auto_fix_vgs_execute (ctx : Context)
  : outcome * list Object :=
  match load ctx with
  | inl out => (out, selected_objects ctx)
  | inr l =>
      let '(objs, r) :=
        for_objects (fix_object l (wwmi_vg_remove_zero ctx))
                    (selected_objects ctx) 0 in
      match r with
      | inl e => (Uncaught e, objs)
      | inr processed_count =>
          (Returned FINISHED INFO (AutoFixed processed_count), objs)
      end
  end.

Definition WWMI_OT_remove_check_prefix_execute (ctx : Context)
  : outcome * list Object :=
  Common.remove_check_prefix ctx.

End V1_1_0.

(** ** Vocabulary of the statements *)

Section Vocabulary.
Import Bpy Metadata Common.

Local Open Scope string_scope.

(** A non-empty string of digits. *)
Definition digits (d : string) : Prop :=
  Py.all_chars Py.isdecimal d = true /\ d <> EmptyString.

(** A value some component's [vg_map] holds. *)
Definition vg_value (components : list Component) (v : Z) : Prop :=
  exists comp d k,
    comp ∈ components /\ vg_map comp = Some d /\ d !! k = Some v.


(** What the optional cleanup at the end of an iteration does. *)
Definition cleanup (remove_zero : bool) (obj : Object) : Object :=
  if remove_zero then remove_zero_weight_vgroups obj else obj.

(** What [Found] means: the object is a mesh, its name holds a component
    id inside the list, and the set and maximum found are those of that
    component's [vg_map]. *)
Definition found_in (components : list Metadata.Component) (obj : Object)
    (comp_id : Z) (s : gset Z) (cmax : Z) : Prop :=
  obj_type obj = "MESH" /\
  exists g1 comp d,
    comp_name_search (obj_name obj) = Some g1 /\
    Py.int g1 = Some comp_id /\
    0 <= comp_id < Z.of_nat (length components) /\
    components !! Z.to_nat comp_id = Some comp /\
    Metadata.vg_map comp = Some d /\ d <> ∅ /\
    (forall v, v ∈ s <-> exists k, d !! k = Some v) /\
    cmax ∈ s /\ (forall v, v ∈ s -> v <= cmax).


(** The removal loop of the sweep, on the list of groups alone. *)
Fixpoint remove_all_names (removed : nat) (vg_to_delete : list nat)
    (vgs : list string) : list string :=
  match vg_to_delete with
  | [] => vgs
  | i :: rest =>
      remove_all_names (S removed) rest (delete (i - removed)%nat vgs)
  end.

(** What Remove "Check" Prefix makes of one selected object. *)
Definition remove_check_prefix_result (obj : Object) : Object :=
  if String.eqb (obj_type obj) "MESH" then
    set_vertex_groups obj (map remove_check_prefix_name (vertex_groups obj))
  else obj.

(** The same scene with another selection. *)
Definition reselect (ctx : Context) (objs : list Object) : Context :=
  {| wwmi_vg_metadata_path := wwmi_vg_metadata_path ctx;
     isfile := isfile ctx;
     json_load := json_load ctx;
     wwmi_vg_remove_zero := wwmi_vg_remove_zero ctx;
     selected_objects := objs |}.

(** A document read without trouble from an existing file, the flag and
    a selection. *)
Definition context_of (metadata : Py.M Document) (remove_zero : bool)
    (objs : list Object) : Context :=
  {| wwmi_vg_metadata_path := "/mods/metadata.json";
     isfile := true;
     json_load := metadata;
     wwmi_vg_remove_zero := remove_zero;
     selected_objects := objs |}.

Definition mesh (name : string) (vgs : list string)
    (vs : list MeshVertex) : Object :=
  {| obj_type := "MESH"; obj_name := name;
     vertex_groups := vgs; vertices := vs |}.

(** The end-to-end scenario of the specification:
    [{"components": [{"vg_map": {"a": 0, "b": 1}},
                     {"vg_map": {"a": 256, "b": 257}}]}]
    and an object "Component 1" with groups "257", "258", "5". *)
Definition scenario_components : list Component :=
  [ {| vg_map := Some {[ "a" := 0; "b" := 1 ]} |};
    {| vg_map := Some {[ "a" := 256; "b" := 257 ]} |} ].

Definition scenario_object (vs : list MeshVertex) : Object :=
  mesh "Component 1" ["257"; "258"; "5"] vs.

Definition scenario (vs : list MeshVertex) : Context :=
  context_of (inr {| components := Some scenario_components |}) false
    [scenario_object vs].

(** [{"components": [{"vg_map": {"a": 7, "b": 600}}]}]: the only
    component reserves 7 and 600, so the threshold is 344. *)
Definition wide_components : list Component :=
  [ {| vg_map := Some {[ "a" := 7; "b" := 600 ]} |} ].

Definition wide (vgs : list string) : Context :=
  context_of (inr {| components := Some wide_components |}) false
    [mesh "Component 0" vgs []].

(** [{"components": [{"vg_map": {"a": 600}}, {"vg_map": {}}]}] with one
    object of the empty component selected before one of the other. *)
Definition hollow_components : list Component :=
  [ {| vg_map := Some {[ "a" := 600 ]} |};
    {| vg_map := Some ∅ |} ].

Definition hollow : Context :=
  context_of (inr {| components := Some hollow_components |}) false
    [mesh "Component 1" ["3"] []; mesh "Component 0" ["3"] []].


(** Three groups and one vertex, which lists the middle group with weight
    zero; and the same with weight one half. *)
Definition limp : Object :=
  mesh "Component 0" ["1"; "2"; "3"]
    [ {| groups := [ {| group := 1; weight := Qmake 0 1 |} ] |} ].

Definition limp' : Object :=
  mesh "Component 0" ["1"; "2"; "3"]
    [ {| groups := [ {| group := 1; weight := Qmake 1 2 |} ] |} ].




(** A selected object that is not a mesh. *)
Definition lamp : Object :=
  {| obj_type := "LIGHT"; obj_name := "Component 0";
     vertex_groups := ["3"]; vertices := [] |}.

End Vocabulary.

(** Decidable facts about concrete sets and maps, by evaluation. *)
Ltac by_decide :=
  match goal with
  | |- ~ ?P => apply (bool_decide_eq_false_1 P); vm_compute; reflexivity
  | |- ?P => apply (bool_decide_eq_true_1 P); vm_compute; reflexivity
  end.

(** ** Facts about the string functions *)

Section StringFacts.
Import Py.

Local Open Scope string_scope.

Lemma app_nil (s : string) : EmptyString +:+ s = s.
Proof. reflexivity. Qed.

Lemma app_cons (c : ascii) (s t : string) :
  String c s +:+ t = String c (s +:+ t).
Proof. reflexivity. Qed.

Lemma strip_prefix_Some (p s r : string) :
  strip_prefix p s = Some r -> s = p +:+ r.
Proof.
  revert s. induction p as [|a p IH]; intros s H; simpl in *.
  - injection H as ->. reflexivity.
  - destruct s as [|b s]; [discriminate|].
    destruct (Ascii.eqb_spec a b) as [->|]; [|discriminate].
    rewrite app_cons. f_equal. apply IH, H.
Qed.

Lemma strip_prefix_app (p r : string) : strip_prefix p (p +:+ r) = Some r.
Proof.
  induction p as [|a p IH]; [reflexivity|].
  rewrite app_cons. simpl. rewrite Ascii.eqb_refl. exact IH.
Qed.


Lemma all_chars_take_while (p : ascii -> bool) (s : string) :
  all_chars p (take_while p s) = true.
Proof.
  induction s as [|c s IH]; simpl; [reflexivity|].
  destruct (p c) eqn:E; simpl; [rewrite E; exact IH | reflexivity].
Qed.



(** A string that starts with a character that is neither whitespace, a
    sign nor a digit is not an integer literal. *)
Lemma int_bad_first (c : ascii) (r : string) :
  int_space c = false -> isdecimal c = false ->
  Ascii.eqb c "-" = false -> Ascii.eqb c "+" = false ->
  int (String c r) = None.
Proof.
  intros Hs Hd Hm Hp. unfold int, strip. simpl. rewrite Hs. simpl.
  rewrite Hs, andb_false_r, Hm, Hp. simpl. rewrite Hd. reflexivity.
Qed.

Lemma int_Check (r : string) : int ("Check" +:+ r) = None.
Proof. apply int_bad_first; reflexivity. Qed.

(** No integer literal starts with "Check". *)
Lemma int_not_startswith_Check (s : string) (n : Z) :
  int s = Some n -> startswith s "Check" = false.
Proof.
  intros H. unfold startswith.
  destruct (strip_prefix "Check" s) as [r|] eqn:E; [|reflexivity].
  apply strip_prefix_Some in E. subst s. rewrite int_Check in H. discriminate.
Qed.


Lemma isdecimal_digit_value (c : ascii) :
  isdecimal c = true -> 0 <= digit_value c <= 9.
Proof.
  unfold isdecimal, digit_value.
  intros [H1 H2]%andb_true_iff.
  apply N.leb_le in H1, H2. lia.
Qed.

(** A run of digits always reads as a number. *)
Lemma int_tail_digits (d : string) (acc : Z) :
  all_chars isdecimal d = true -> 0 <= acc ->
  exists n, int_tail acc d = Some n /\ 0 <= n.
Proof.
  revert acc. induction d as [|c d IH]; intros acc Hall Hacc; simpl in *.
  - eauto.
  - apply andb_true_iff in Hall as [Hc Hd]. rewrite Hc.
    apply IH; [exact Hd|].
    pose proof (isdecimal_digit_value c Hc). lia.
Qed.

Lemma int_digits_digits (d : string) :
  digits d -> exists n, int d = Some n /\ 0 <= n.
Proof.
  intros [Hall Hne]. destruct d as [|c d]; [congruence|].
  simpl in Hall. apply andb_true_iff in Hall as [Hc Hd].
  assert (Hsp : int_space c = false).
  { revert Hc. unfold isdecimal, int_space.
    intros [H1 H2]%andb_true_iff. apply N.leb_le in H1, H2.
    repeat (apply orb_false_iff; split);
      try (apply andb_false_iff; right); try apply N.leb_gt;
      try apply N.eqb_neq; lia. }
  assert (Hm : Ascii.eqb c "-" = false).
  { destruct (Ascii.eqb_spec c "-") as [->|]; [discriminate|reflexivity]. }
  assert (Hp : Ascii.eqb c "+" = false).
  { destruct (Ascii.eqb_spec c "+") as [->|]; [discriminate|reflexivity]. }
  assert (Hstrip : strip int_space (String c d) = String c d).
  { unfold strip. simpl. rewrite Hsp. simpl. rewrite Hsp, andb_false_r.
    f_equal. clear -Hd.
    induction d as [|a d IH]; simpl in *; [reflexivity|].
    apply andb_true_iff in Hd as [Ha Hd]. rewrite (IH Hd).
    assert (int_space a = false) as ->; [|rewrite andb_false_r; reflexivity].
    revert Ha. unfold isdecimal, int_space.
    intros [H1 H2]%andb_true_iff. apply N.leb_le in H1, H2.
    repeat (apply orb_false_iff; split);
      try (apply andb_false_iff; right); try apply N.leb_gt;
      try apply N.eqb_neq; lia. }
  unfold int. rewrite Hstrip, Hm, Hp. simpl. rewrite Hc.
  apply int_tail_digits; [exact Hd|].
  pose proof (isdecimal_digit_value c Hc). lia.
Qed.

End StringFacts.

(** ** [str] and [int] are inverse to each other *)

Section IntStr.
Import Py.

Local Open Scope string_scope.













End IntStr.

(** ** The vertex-group loop, branch by branch *)

Section FixVg.
Import Bpy Common.

Local Open Scope string_scope.

Lemma map_lookup {A B} (f : A -> B) (l : list A) (j : nat) :
  map f l !! j = f <$> (l !! j).
Proof.
  revert j. induction l as [|x l IH]; intros [|j]; simpl; auto.
Qed.

(** 1.0.0 runs the loop of 1.1.0 with no global exceptions. *)
Lemma fix_vg_no_global (t : Z) (exception_vgs : gset Z) (cmax : Z)
    (name : string) :
  V1_0_0.fix_vg t exception_vgs cmax name
  = V1_1_0.fix_vg t ∅ exception_vgs cmax name.
Proof.
  unfold V1_0_0.fix_vg, V1_1_0.fix_vg.
  destruct (Py.int name) as [n|]; [|reflexivity].
  rewrite (bool_decide_eq_false_2 (n ∈ (∅ : gset Z))) by set_solver.
  reflexivity.
Qed.

Lemma fix_vgs_no_global (t : Z) (exception_vgs : gset Z) (cmax : Z)
    (obj : Object) :
  V1_0_0.fix_vgs t exception_vgs cmax obj
  = V1_1_0.fix_vgs t ∅ exception_vgs cmax obj.
Proof.
  unfold V1_0_0.fix_vgs, V1_1_0.fix_vgs.
  rewrite (map_ext _ _ (fun name =>
             f_equal (name_after name)
               (fix_vg_no_global t exception_vgs cmax name))).
  reflexivity.
Qed.


Lemma fix_vg_not_numeric (t : Z) (g l : gset Z) (cmax : Z) (name : string) :
  Py.int name = None -> V1_1_0.fix_vg t g l cmax name = NotNumeric.
Proof. unfold V1_1_0.fix_vg. intros ->. reflexivity. Qed.

Lemma fix_vg_above (t : Z) (g l : gset Z) (cmax : Z) (name : string) (n : Z) :
  Py.int name = Some n -> n > t ->
  V1_1_0.fix_vg t g l cmax name = KeptAboveThreshold.
Proof.
  unfold V1_1_0.fix_vg. intros -> H.
  rewrite Z.gtb_ltb. destruct (Z.ltb_spec t n); [reflexivity|lia].
Qed.

Lemma fix_vg_exception_marked (t : Z) (g l : gset Z) (cmax : Z)
    (name : string) (n : Z) :
  Py.int name = Some n -> n <= t -> n ∈ g ∪ l -> cmax >= 256 ->
  V1_1_0.fix_vg t g l cmax name = MarkedCheck ("Check" +:+ name).
Proof.
  unfold V1_1_0.fix_vg. intros Hint Hle Hin Hmax. rewrite Hint.
  rewrite Z.gtb_ltb. destruct (Z.ltb_spec t n); [lia|].
  assert (bool_decide (n ∈ g) || bool_decide (n ∈ l) = true) as ->.
  { apply elem_of_union in Hin as [H1|H1];
      [rewrite (bool_decide_eq_true_2 _ H1); reflexivity
      |rewrite (bool_decide_eq_true_2 _ H1); apply orb_true_r]. }
  rewrite Z.geb_leb. destruct (Z.leb_spec 256 cmax); [|lia].
  rewrite (int_not_startswith_Check _ _ Hint). reflexivity.
Qed.

Lemma fix_vg_exception_kept (t : Z) (g l : gset Z) (cmax : Z)
    (name : string) (n : Z) :
  Py.int name = Some n -> n <= t -> n ∈ g ∪ l -> cmax < 256 ->
  V1_1_0.fix_vg t g l cmax name = KeptException.
Proof.
  unfold V1_1_0.fix_vg. intros Hint Hle Hin Hmax. rewrite Hint.
  rewrite Z.gtb_ltb. destruct (Z.ltb_spec t n); [lia|].
  assert (bool_decide (n ∈ g) || bool_decide (n ∈ l) = true) as ->.
  { apply elem_of_union in Hin as [H1|H1];
      [rewrite (bool_decide_eq_true_2 _ H1); reflexivity
      |rewrite (bool_decide_eq_true_2 _ H1); apply orb_true_r]. }
  rewrite Z.geb_leb. destruct (Z.leb_spec 256 cmax); [lia|reflexivity].
Qed.

Lemma fix_vg_remapped (t : Z) (g l : gset Z) (cmax : Z)
    (name : string) (n : Z) :
  Py.int name = Some n -> n <= t -> n ∉ g ∪ l ->
  V1_1_0.fix_vg t g l cmax name = Remapped (Py.str (n + 256)).
Proof.
  unfold V1_1_0.fix_vg. intros Hint Hle Hin. rewrite Hint.
  rewrite Z.gtb_ltb. destruct (Z.ltb_spec t n); [lia|].
  apply not_elem_of_union in Hin as [H1 H2].
  rewrite (bool_decide_eq_false_2 _ H1), (bool_decide_eq_false_2 _ H2).
  reflexivity.
Qed.

Lemma fix_vg_never_has_check (t : Z) (g l : gset Z) (cmax : Z)
    (name : string) :
  V1_1_0.fix_vg t g l cmax name <> KeptHasCheck.
Proof.
  unfold V1_1_0.fix_vg.
  destruct (Py.int name) as [n|] eqn:Hint; [|discriminate].
  rewrite (int_not_startswith_Check _ _ Hint).
  repeat case_match; discriminate.
Qed.

(** Only names that read as integers get past the first test of the loop. *)
Lemma fix_vg_numeric (t : Z) (g l : gset Z) (cmax : Z) (name : string) :
  V1_1_0.fix_vg t g l cmax name <> NotNumeric ->
  exists n, Py.int name = Some n.
Proof.
  unfold V1_1_0.fix_vg. destruct (Py.int name) as [n|]; [eauto|congruence].
Qed.

End FixVg.

(** ** The values derived from the metadata *)

Section MetadataFacts.
Import Bpy Metadata Common.

Lemma fold_left_max (r : list Z) (x : Z) :
  (fold_left Z.max r x = x \/ fold_left Z.max r x ∈ r) /\
  x <= fold_left Z.max r x /\
  (forall y, y ∈ r -> y <= fold_left Z.max r x).
Proof.
  revert x. induction r as [|a r IH]; intros x; simpl.
  - split; [left; reflexivity|]. split; [lia|]. intros y Hy. inversion Hy.
  - destruct (IH (Z.max x a)) as (Hin & Hle & Hub). split; [|split].
    + destruct Hin as [Heq|Hin].
      * rewrite Heq. destruct (Z.max_spec x a) as [[_ ->]|[_ ->]];
          [right; left | left; reflexivity].
      * right. right. exact Hin.
    + lia.
    + intros y [->|Hy]%elem_of_cons; [lia | auto].
Qed.

Lemma max_spec (l : list Z) (m : Z) :
  Py.max l = inr m -> m ∈ l /\ (forall y, y ∈ l -> y <= m).
Proof.
  destruct l as [|x r]; simpl; [discriminate|].
  intros [= <-]. destruct (fold_left_max r x) as (Hin & Hle & Hub). split.
  - destruct Hin as [->|Hin]; [left | right; exact Hin].
  - intros y [->|Hy]%elem_of_cons; auto.
Qed.

Lemma max_nonempty (l : list Z) : l <> [] -> exists m, Py.max l = inr m.
Proof. destruct l; [congruence | simpl; eauto]. Qed.

Lemma elem_of_values (d : gmap string Z) (v : Z) :
  v ∈ values d <-> exists k, d !! k = Some v.
Proof.
  unfold values. rewrite list_elem_of_fmap. split.
  - intros ([k v'] & -> & H). exists k. apply elem_of_map_to_list in H. exact H.
  - intros [k H]. exists (k, v). split; [reflexivity|].
    apply elem_of_map_to_list. exact H.
Qed.


Lemma all_values_spec (components : list Component) (vs : list Z) :
  all_values components = inr vs ->
  Forall (fun comp => is_Some (vg_map comp)) components /\
  (forall v, v ∈ vs <-> vg_value components v).
Proof.
  revert vs. induction components as [|comp rest IH]; intros vs; simpl.
  - intros [= <-]. split; [constructor|]. intros v. split.
    + intros H. inversion H.
    + intros (c & _ & _ & H & _). inversion H.
  - unfold getitem_vg_map. destruct (vg_map comp) as [d|] eqn:Hd; simpl;
      [|discriminate].
    destruct (all_values rest) as [e|vs'] eqn:Hrest; simpl; [discriminate|].
    intros [= <-]. destruct (IH vs' eq_refl) as [Hall Hvs]. split.
    + constructor; [rewrite Hd; eauto | exact Hall].
    + intros v. rewrite elem_of_app, elem_of_values, Hvs. split.
      * intros [[k Hk]|(c & d' & k & Hc & Hd' & Hk)].
        -- exists comp, d, k. split; [left|]; auto.
        -- exists c, d', k. split; [right|]; auto.
      * intros (c & d' & k & Hc & Hd' & Hk).
        apply elem_of_cons in Hc as [->|Hc].
        -- left. exists k. congruence.
        -- right. exists c, d', k. auto.
Qed.

Lemma all_values_total (components : list Component) :
  Forall (fun comp => is_Some (vg_map comp)) components ->
  exists vs, all_values components = inr vs.
Proof.
  induction 1 as [|comp rest [d Hd] _ [vs IH]]; simpl; [eauto|].
  unfold getitem_vg_map. rewrite Hd. simpl. rewrite IH. simpl. eauto.
Qed.


Lemma merged_max_keys (components : list Component) (m : Z) :
  merged_max components = inr m ->
  Forall (fun comp => is_Some (vg_map comp)) components.
Proof.
  unfold merged_max. destruct (all_values components) as [e|vs] eqn:Hvs;
    simpl; [discriminate|].
  intros _. apply all_values_spec in Hvs as [H _]. exact H.
Qed.

Lemma merged_max_total (components : list Component) (v : Z) :
  Forall (fun comp => is_Some (vg_map comp)) components ->
  vg_value components v ->
  exists m, merged_max components = inr m.
Proof.
  intros Hall Hv. destruct (all_values_total _ Hall) as [vs Hvs].
  unfold merged_max. rewrite Hvs. simpl. apply max_nonempty.
  apply all_values_spec in Hvs as [_ Hvs]. apply Hvs in Hv.
  intros ->. inversion Hv.
Qed.

Lemma global_exceptions_cons (comp : Component) (rest : list Component)
    (i : nat) (acc : gset Z) :
  V1_1_0.global_exceptions i (comp :: rest) acc
  = if (3 <=? i)%nat then
      d <-- getitem_vg_map comp ;;
      V1_1_0.global_exceptions (S i) rest (acc ∪ list_to_set (values d))
    else V1_1_0.global_exceptions (S i) rest acc.
Proof. reflexivity. Qed.


Lemma global_exceptions_short (components : list Component) (i : nat)
    (acc : gset Z) :
  (i + length components <= 3)%nat ->
  V1_1_0.global_exceptions i components acc = inr acc.
Proof.
  revert i. induction components as [|comp rest IH]; intros i H.
  - reflexivity.
  - rewrite global_exceptions_cons. simpl in H.
    destruct (Nat.leb_spec 3 i); [lia|]. apply IH. lia.
Qed.

Lemma global_exceptions_total (components : list Component) (i : nat)
    (acc : gset Z) :
  Forall (fun comp => is_Some (vg_map comp)) components ->
  exists g, V1_1_0.global_exceptions i components acc = inr g.
Proof.
  intros H. revert i acc.
  induction H as [|comp rest [d Hd] _ IH]; intros i acc; [simpl; eauto|].
  rewrite global_exceptions_cons.
  destruct (3 <=? i)%nat; [|apply IH].
  unfold getitem_vg_map. rewrite Hd. simpl. apply IH.
Qed.

End MetadataFacts.

(** ** The loop over the selection *)

Section Loop.
Import Bpy Common.

Lemma for_objects_cons (body : Object -> Py.M (Object * bool))
    (obj : Object) (rest : list Object) (count : nat) :
  for_objects body (obj :: rest) count
  = match body obj with
    | inl e => (obj :: rest, Py.raise e)
    | inr (obj', counted) =>
        let '(rest', r) :=
          for_objects body rest (if counted then S count else count) in
        (obj' :: rest', r)
    end.
Proof. reflexivity. Qed.

(** Every object comes out of the loop as it went in or as the body left
    it, at the same position. *)
Lemma for_objects_lookup (body : Object -> Py.M (Object * bool))
    (objs : list Object) (count : nat) (i : nat) (obj : Object) :
  objs !! i = Some obj ->
  exists obj', (for_objects body objs count).1 !! i = Some obj' /\
    (obj' = obj \/ exists counted, body obj = inr (obj', counted)).
Proof.
  revert count i. induction objs as [|o rest IH]; intros count i Hi.
  - rewrite lookup_nil in Hi. discriminate.
  - rewrite for_objects_cons. destruct (body o) as [e|[o' counted]] eqn:Hb.
    + exists obj. split; [exact Hi | left; reflexivity].
    + specialize (IH (if counted then S count else count)).
      destruct (for_objects body rest _) as [rest' r]. simpl in *.
      destruct i as [|i]; simpl in *.
      * injection Hi as <-. exists o'. split; [reflexivity|]. right. eauto.
      * apply IH, Hi.
Qed.

Lemma for_objects_length (body : Object -> Py.M (Object * bool))
    (objs : list Object) (count : nat) :
  length (for_objects body objs count).1 = length objs.
Proof.
  revert count. induction objs as [|o rest IH]; intros count; [reflexivity|].
  rewrite for_objects_cons.
  destruct (body o) as [e|[o' counted]]; [reflexivity|].
  specialize (IH (if counted then S count else count)).
  destruct (for_objects body rest _) as [rest' r]. simpl in *. lia.
Qed.

Lemma for_objects_ext (body1 body2 : Object -> Py.M (Object * bool))
    (objs : list Object) (count : nat) :
  (forall obj, obj ∈ objs -> body1 obj = body2 obj) ->
  for_objects body1 objs count = for_objects body2 objs count.
Proof.
  revert count. induction objs as [|o rest IH]; intros count H; [reflexivity|].
  rewrite !for_objects_cons, <- (H o) by left.
  destruct (body1 o) as [e|[o' counted]]; [reflexivity|].
  rewrite IH; [reflexivity|]. intros obj Hobj. apply H. right. exact Hobj.
Qed.

(** A loop whose body never raises visits every object. *)
Lemma for_objects_total (body : Object -> Py.M (Object * bool))
    (f : Object -> Object * bool) (objs : list Object) (count : nat) :
  (forall obj, obj ∈ objs -> body obj = inr (f obj)) ->
  for_objects body objs count
  = (map (fun obj => (f obj).1) objs,
     inr (count + length (List.filter (fun obj => (f obj).2) objs))%nat).
Proof.
  revert count. induction objs as [|o rest IH]; intros count H.
  - simpl. unfold Py.ret. do 2 f_equal. lia.
  - rewrite for_objects_cons, (H o) by left.
    destruct (f o) as [o' counted] eqn:Hf.
    rewrite IH by (intros obj Hobj; apply H; right; exact Hobj).
    simpl. rewrite Hf. simpl.
    destruct counted; simpl; [do 2 f_equal; lia | reflexivity].
Qed.

End Loop.

(** ** Loading, inverted *)

Section LoadFacts.
Import Bpy Common.

Lemma load_ok_1_0_0 (ctx : Context) (l : V1_0_0.Loaded) :
  V1_0_0.load ctx = inr l ->
  exists metadata,
    Py.is_empty (wwmi_vg_metadata_path ctx) = false /\
    isfile ctx = true /\
    json_load ctx = inr metadata /\
    Metadata.components metadata = Some (V1_0_0.components l) /\
    V1_0_0.components l <> [] /\
    merged_max (V1_0_0.components l) = inr (V1_0_0.merged_max_vg l) /\
    V1_0_0.threshold l = V1_0_0.merged_max_vg l - 256.
Proof.
  unfold V1_0_0.load.
  destruct (Py.is_empty _); [discriminate|].
  destruct (isfile ctx); [|discriminate]. simpl.
  destruct (json_load ctx) as [e|metadata]; [discriminate|].
  destruct (Metadata.components metadata) as [[|c cs]|] eqn:Hc;
    [discriminate| |discriminate].
  destruct (merged_max (c :: cs)) as [e|m] eqn:Hm; [discriminate|].
  intros [= <-]. exists metadata. simpl. repeat split; auto.
Qed.

Lemma load_ok_1_1_0 (ctx : Context) (l : V1_1_0.Loaded) :
  V1_1_0.load ctx = inr l ->
  exists metadata,
    Py.is_empty (wwmi_vg_metadata_path ctx) = false /\
    isfile ctx = true /\
    json_load ctx = inr metadata /\
    Metadata.components metadata = Some (V1_1_0.components l) /\
    V1_1_0.components l <> [] /\
    merged_max (V1_1_0.components l) = inr (V1_1_0.merged_max_vg l) /\
    V1_1_0.threshold l = V1_1_0.merged_max_vg l - 256 /\
    V1_1_0.global_exceptions 0 (V1_1_0.components l) ∅
      = inr (V1_1_0.global_exception_vgs l).
Proof.
  unfold V1_1_0.load.
  destruct (Py.is_empty _); [discriminate|].
  destruct (isfile ctx); [|discriminate]. simpl.
  destruct (json_load ctx) as [e|metadata]; [discriminate|].
  destruct (Metadata.components metadata) as [[|c cs]|] eqn:Hc;
    [discriminate| |discriminate].
  destruct (merged_max (c :: cs)) as [e|m] eqn:Hm; [discriminate|].
  destruct (V1_1_0.global_exceptions 0 (c :: cs) ∅) as [e|g] eqn:Hg;
    [discriminate|].
  intros [= <-]. exists metadata. simpl. repeat split; auto.
Qed.

End LoadFacts.

(** ** One iteration of the object loop, inverted *)

Section ObjectFacts.
Import Bpy Common.

Lemma fix_object_1_0_0_inv (l : V1_0_0.Loaded) (remove_zero : bool)
    (obj obj' : Object) (counted : bool) :
  V1_0_0.fix_object l remove_zero obj = inr (obj', counted) ->
  (obj' = obj /\ counted = false) \/
  exists comp_id exception_vgs component_max_vg,
    V1_0_0.find_component (V1_0_0.components l) obj
      = inr (Found comp_id exception_vgs component_max_vg) /\
    counted = true /\
    obj' = cleanup remove_zero
             (V1_0_0.fix_vgs (V1_0_0.threshold l) exception_vgs
                component_max_vg obj).
Proof.
  unfold V1_0_0.fix_object.
  destruct (V1_0_0.find_component _ obj) as [e|r]; simpl; [discriminate|].
  destruct r; intros [= <- <-]; try (left; split; reflexivity).
  right. eauto 6.
Qed.

Lemma fix_object_1_1_0_inv (l : V1_1_0.Loaded) (remove_zero : bool)
    (obj obj' : Object) (counted : bool) :
  V1_1_0.fix_object l remove_zero obj = inr (obj', counted) ->
  (obj' = obj /\ counted = false) \/
  exists comp_id local_vg_map component_max_vg,
    V1_1_0.find_component (V1_1_0.components l) obj
      = inr (Found comp_id local_vg_map component_max_vg) /\
    counted = true /\
    obj' = cleanup remove_zero
             (V1_1_0.fix_vgs (V1_1_0.threshold l)
                (V1_1_0.global_exception_vgs l)
                local_vg_map component_max_vg obj).
Proof.
  unfold V1_1_0.fix_object.
  destruct (V1_1_0.find_component _ obj) as [e|r]; simpl; [discriminate|].
  destruct r; intros [= <- <-]; try (left; split; reflexivity).
  right. eauto 6.
Qed.



(** The objects an invocation leaves behind, once loading has succeeded. *)
Lemma execute_1_0_0_objects (ctx : Context) (l : V1_0_0.Loaded) :
  V1_0_0.load ctx = inr l ->
  (V1_0_0.WWMI_OT_auto_fix_vgs_execute ctx).2
  = (for_objects (V1_0_0.fix_object l (wwmi_vg_remove_zero ctx))
       (selected_objects ctx) 0).1.
Proof.
  unfold V1_0_0.WWMI_OT_auto_fix_vgs_execute. intros ->.
  destruct (for_objects _ _ _) as [objs [e|n]]; reflexivity.
Qed.

Lemma execute_1_1_0_objects (ctx : Context) (l : V1_1_0.Loaded) :
  V1_1_0.load ctx = inr l ->
  (V1_1_0.WWMI_OT_auto_fix_vgs_execute ctx).2
  = (for_objects (V1_1_0.fix_object l (wwmi_vg_remove_zero ctx))
       (selected_objects ctx) 0).1.
Proof.
  unfold V1_1_0.WWMI_OT_auto_fix_vgs_execute. intros ->.
  destruct (for_objects _ _ _) as [objs [e|n]]; reflexivity.
Qed.


End ObjectFacts.

(** ** The header of the object loop, inverted *)

Section FindComponentFacts.
Import Bpy Common.

Local Open Scope string_scope.

Lemma comp_name_match_here_digits (s g : string) :
  comp_name_match_here s = Some g -> digits g.
Proof.
  unfold comp_name_match_here.
  destruct (Py.strip_prefix "Component" s) as [r|]; [|discriminate].
  destruct (Py.is_empty _) eqn:E; [discriminate|]. intros [= <-]. split.
  - apply all_chars_take_while.
  - intros H. rewrite H in E. discriminate.
Qed.

Lemma comp_name_search_digits (s g : string) :
  comp_name_search s = Some g -> digits g.
Proof.
  induction s as [|c s IH].
  - intros H. vm_compute in H. discriminate.
  - change (comp_name_search (String c s))
      with (match comp_name_match_here (String c s) with
            | Some g => Some g
            | None => comp_name_search s
            end).
    destruct (comp_name_match_here (String c s)) eqn:E; [|exact IH].
    intros [= <-]. eapply comp_name_match_here_digits, E.
Qed.

Lemma elements_values (d : gmap string Z) (s : gset Z) (cmax : Z) :
  s = list_to_set (Metadata.values d) ->
  Py.max (elements s) = inr cmax ->
  d <> ∅ /\ (forall v, v ∈ s <-> exists k, d !! k = Some v) /\
  cmax ∈ s /\ (forall v, v ∈ s -> v <= cmax).
Proof.
  intros -> [Hin Hub]%max_spec.
  assert (Hs : forall v, v ∈ (list_to_set (Metadata.values d) : gset Z)
                         <-> exists k, d !! k = Some v).
  { intros v. rewrite elem_of_list_to_set. apply elem_of_values. }
  apply elem_of_elements in Hin. split; [|split; [exact Hs|split]].
  - intros ->. apply Hs in Hin as [k Hk]. rewrite lookup_empty in Hk.
    discriminate.
  - exact Hin.
  - intros v Hv. apply Hub. apply elem_of_elements. exact Hv.
Qed.

Lemma find_component_1_1_0_found (components : list Metadata.Component)
    (obj : Object) (comp_id : Z) (s : gset Z) (cmax : Z) :
  V1_1_0.find_component components obj = inr (Found comp_id s cmax) ->
  found_in components obj comp_id s cmax.
Proof.
  unfold V1_1_0.find_component, found_in.
  destruct (String.eqb_spec (obj_type obj) "MESH") as [Hty|]; simpl;
    [|discriminate].
  destruct (comp_name_search (obj_name obj)) as [g1|] eqn:Hg; [|discriminate].
  destruct (int_digits_digits g1 (comp_name_search_digits _ _ Hg))
    as (n & Hn & Hn0).
  unfold int_or_raise. rewrite Hn. simpl.
  rewrite Z.geb_leb. destruct (Z.leb_spec (Z.of_nat (length components)) n);
    [discriminate|].
  unfold index. destruct (components !! Z.to_nat n) as [comp|] eqn:Hc; simpl;
    [|discriminate].
  unfold getitem_vg_map. destruct (Metadata.vg_map comp) as [d|] eqn:Hd; simpl;
    [|discriminate].
  destruct (Py.max (elements _)) as [e|m] eqn:Hm; simpl; [discriminate|].
  intros [= <- <- <-]. split; [exact Hty|].
  exists g1, comp, d.
  destruct (elements_values d _ m eq_refl Hm) as (H1 & H2 & H3 & H4).
  repeat split; auto; try lia; apply H2.
Qed.

Lemma find_component_1_0_0_found (components : list Metadata.Component)
    (obj : Object) (comp_id : Z) (s : gset Z) (cmax : Z) :
  V1_0_0.find_component components obj = inr (Found comp_id s cmax) ->
  found_in components obj comp_id s cmax.
Proof.
  unfold V1_0_0.find_component, found_in.
  destruct (String.eqb_spec (obj_type obj) "MESH") as [Hty|]; simpl;
    [|discriminate].
  destruct (comp_name_search (obj_name obj)) as [g1|] eqn:Hg; [|discriminate].
  destruct (int_digits_digits g1 (comp_name_search_digits _ _ Hg))
    as (n & Hn & Hn0).
  unfold int_or_raise. rewrite Hn. simpl.
  rewrite Z.geb_leb. destruct (Z.leb_spec (Z.of_nat (length components)) n);
    [discriminate|].
  unfold index. destruct (components !! Z.to_nat n) as [comp|] eqn:Hc; simpl;
    [|discriminate].
  destruct (Metadata.vg_map comp) as [d|] eqn:Hd; simpl.
  2:{ rewrite bool_decide_eq_true_2 by reflexivity. discriminate. }
  destruct (bool_decide (d = ∅)); [discriminate|].
  destruct (Py.max (elements _)) as [e|m] eqn:Hm; simpl; [discriminate|].
  intros [= <- <- <-]. split; [exact Hty|].
  exists g1, comp, d.
  destruct (elements_values d _ m eq_refl Hm) as (H1 & H2 & H3 & H4).
  repeat split; auto; try lia; apply H2.
Qed.


End FindComponentFacts.

(** ** Remove "Check" Prefix, name by name *)

Section RemoveCheckFacts.
Import Bpy Common.

Local Open Scope string_scope.





(** The operator never raises: it maps [remove_check_prefix_object] over
    the selection. *)
Lemma remove_check_prefix_objects (ctx : Context) :
  (remove_check_prefix ctx).2 = map remove_check_prefix_result
                                    (selected_objects ctx).
Proof.
  unfold remove_check_prefix.
  rewrite (for_objects_total remove_check_prefix_object
             (fun obj => (remove_check_prefix_result obj,
                          String.eqb (obj_type obj) "MESH"
                          && existsb has_check_prefix (vertex_groups obj)))).
  - reflexivity.
  - intros obj _. unfold remove_check_prefix_object, remove_check_prefix_result.
    destruct (String.eqb (obj_type obj) "MESH"); reflexivity.
Qed.


End RemoveCheckFacts.

(** ** The zero-weight sweep *)

Section SweepFacts.
Import Bpy Common.

Lemma used_iff (obj : Object) (i : nat) :
  used obj i = true <->
  exists v g, v ∈ vertices obj /\ g ∈ groups v /\ group g = i.
Proof.
  unfold used. rewrite existsb_exists. split.
  - intros (v & Hv & Hg). apply existsb_exists in Hg as (g & Hg & Heq).
    exists v, g. rewrite !list_elem_of_In. apply Nat.eqb_eq in Heq. auto.
  - intros (v & g & Hv & Hg & Heq). exists v.
    rewrite <- list_elem_of_In. split; [exact Hv|].
    apply existsb_exists. exists g. rewrite <- list_elem_of_In.
    split; [exact Hg | apply Nat.eqb_eq, Heq].
Qed.

(** The scan collects the indices no vertex lists, in increasing order. *)
Lemma elem_of_scan (obj : Object) (b : nat) (vgs : list string) (i : nat) :
  i ∈ scan obj b vgs <->
  (b <= i < b + length vgs)%nat /\ used obj i = false.
Proof.
  revert b. induction vgs as [|vg rest IH]; intros b; simpl.
  - split; [intros H; inversion H | intros [? _]; lia].
  - destruct (used obj b) eqn:Hu.
    + rewrite IH. split.
      * intros [? ?]. split; [lia | assumption].
      * intros [? Hi]. split; [|assumption].
        destruct (decide (i = b)) as [->|]; [congruence | lia].
    + rewrite elem_of_cons, IH. split.
      * intros [->|[? ?]]; (split; [lia | assumption]).
      * intros [? Hi]. destruct (decide (i = b)) as [->|]; [left; reflexivity|].
        right. split; [lia | assumption].
Qed.

Lemma remove_all_vertex_groups (removed : nat) (vg_to_delete : list nat)
    (obj : Object) :
  vertex_groups (remove_all removed vg_to_delete obj)
  = remove_all_names removed vg_to_delete (vertex_groups obj).
Proof.
  revert removed obj. induction vg_to_delete as [|i rest IH];
    intros removed obj; simpl; [reflexivity|].
  rewrite IH. reflexivity.
Qed.

Lemma delete_middle {A} (pre : list A) (x : A) (l : list A) :
  delete (length pre) (pre ++ x :: l) = pre ++ l.
Proof.
  induction pre as [|a pre IH]; simpl; [reflexivity | f_equal; exact IH].
Qed.

(** Removing the collected groups one by one, each at the index it has by
    then, leaves exactly the groups that were not collected. *)
Lemma remove_scanned (obj : Object) (vgs pre : list string) (removed b : nat) :
  b = (removed + length pre)%nat ->
  remove_all_names removed (scan obj b vgs) (pre ++ vgs)
  = pre ++ (filter (fun p => used obj p.1 = true)
              (imap (fun i vg => ((b + i)%nat, vg)) vgs)).*2.
Proof.
  revert pre removed b. induction vgs as [|vg rest IH]; intros pre removed b Hb.
  - reflexivity.
  - rewrite imap_cons, filter_cons. simpl. rewrite Nat.add_0_r.
    rewrite (imap_ext _ (fun i vg => ((S b + i)%nat, vg)))
      by (intros; simpl; f_equal; lia).
    destruct (used obj b) eqn:Hu.
    + rewrite decide_True by reflexivity.
      change (pre ++ vg :: rest) with (pre ++ [vg] ++ rest).
      rewrite app_assoc, (IH (pre ++ [vg]) removed (S b))
        by (rewrite length_app; simpl; lia).
      rewrite <- app_assoc. reflexivity.
    + rewrite decide_False by discriminate. cbn [remove_all_names].
      replace (b - removed)%nat with (length pre) by lia.
      rewrite delete_middle. apply IH. lia.
Qed.

(** The groups the sweep leaves: those some vertex lists, in order. *)
Lemma sweep_vertex_groups (obj : Object) :
  vertex_groups (remove_zero_weight_vgroups obj)
  = (filter (fun p => used obj p.1 = true)
       (imap pair (vertex_groups obj))).*2.
Proof.
  unfold remove_zero_weight_vgroups. rewrite remove_all_vertex_groups.
  apply (remove_scanned obj (vertex_groups obj) [] 0 0). reflexivity.
Qed.

(** [used] looks at the group indices only. *)
Lemma used_indices (obj obj' : Object) (i : nat) :
  map (fun v => map group (groups v)) (vertices obj)
    = map (fun v => map group (groups v)) (vertices obj') ->
  used obj i = used obj' i.
Proof.
  unfold used. intros H.
  assert (Hex : forall vs,
    existsb (fun v => existsb (fun g => Nat.eqb (group g) i) (groups v)) vs
    = existsb (existsb (fun n => Nat.eqb n i))
        (map (fun v => map group (groups v)) vs)).
  { induction vs as [|v vs IH]; simpl; [reflexivity|]. rewrite IH. f_equal.
    induction (groups v) as [|g gs IHg]; simpl; [reflexivity|].
    rewrite IHg. reflexivity. }
  rewrite !Hex, H. reflexivity.
Qed.

End SweepFacts.

(** ** The two versions side by side *)

Section Agreement.
Import Bpy Common.

Lemma find_component_agree (components : list Metadata.Component)
    (obj : Object) :
  Forall (fun comp => exists d, Metadata.vg_map comp = Some d /\ d <> ∅)
         components ->
  V1_0_0.find_component components obj = V1_1_0.find_component components obj.
Proof.
  intros Hall. unfold V1_0_0.find_component, V1_1_0.find_component.
  destruct (negb _); [reflexivity|].
  destruct (comp_name_search (obj_name obj)) as [g1|]; [|reflexivity].
  destruct (int_or_raise g1) as [e|n]; simpl; [reflexivity|].
  destruct (n >=? Z.of_nat (length components)); [reflexivity|].
  unfold index. destruct (components !! Z.to_nat n) as [comp|] eqn:Hc; simpl;
    [|reflexivity].
  apply list_elem_of_lookup_2 in Hc.
  rewrite Forall_forall in Hall. destruct (Hall _ Hc) as (d & Hd & Hne).
  unfold getitem_vg_map. rewrite Hd. simpl.
  rewrite bool_decide_eq_false_2 by exact Hne. reflexivity.
Qed.

Lemma fix_object_agree (l0 : V1_0_0.Loaded) (l1 : V1_1_0.Loaded)
    (remove_zero : bool) (obj : Object) :
  V1_1_0.components l1 = V1_0_0.components l0 ->
  V1_1_0.threshold l1 = V1_0_0.threshold l0 ->
  V1_1_0.global_exception_vgs l1 = ∅ ->
  Forall (fun comp => exists d, Metadata.vg_map comp = Some d /\ d <> ∅)
         (V1_0_0.components l0) ->
  V1_0_0.fix_object l0 remove_zero obj = V1_1_0.fix_object l1 remove_zero obj.
Proof.
  intros Hc Ht Hg Hall. unfold V1_0_0.fix_object, V1_1_0.fix_object.
  rewrite Hc, Ht, Hg, (find_component_agree _ obj Hall).
  destruct (V1_1_0.find_component _ obj) as [e|r]; simpl; [reflexivity|].
  destruct r; try reflexivity; rewrite fix_vgs_no_global; reflexivity.
Qed.



(** The skipping cases of 1.0.0, by what they test. *)
Lemma fix_object_1_0_0_skips (l : V1_0_0.Loaded) (remove_zero : bool)
    (obj : Object) :
  (comp_name_search (obj_name obj) = None \/
   (exists g1 comp_id, comp_name_search (obj_name obj) = Some g1 /\
      Py.int g1 = Some comp_id /\
      (comp_id >= Z.of_nat (length (V1_0_0.components l)) \/
       exists comp, V1_0_0.components l !! Z.to_nat comp_id = Some comp /\
         (Metadata.vg_map comp = None \/ Metadata.vg_map comp = Some ∅)))) ->
  V1_0_0.fix_object l remove_zero obj = inr (obj, false).
Proof.
  unfold V1_0_0.fix_object, V1_0_0.find_component.
  destruct (negb _); [reflexivity|].
  intros [->|(g1 & n & -> & Hn & H)]; [reflexivity|].
  unfold int_or_raise. rewrite Hn. simpl. rewrite Z.geb_leb.
  destruct (Z.leb_spec (Z.of_nat (length (V1_0_0.components l))) n);
    [reflexivity|].
  destruct H as [H|(comp & Hc & Hd)]; [lia|].
  unfold index. rewrite Hc. simpl.
  destruct Hd as [->| ->]; simpl; rewrite bool_decide_eq_true_2 by reflexivity;
    reflexivity.
Qed.

End Agreement.

(** ** Invocations that reach the end of the selection *)

Section Finished.
Import Bpy Common.




End Finished.

(** ** The properties *)

Section Claims.
Import Bpy Common.

Local Open Scope string_scope.



(** C1, as stated, fails: in the scenario the merged maximum is 257 and
    the threshold is 1, "257" reads as 257 and 257 is in the exception set
    of component 1, whose maximum is 257; but neither version renames the
    group to "Check257". *)
Lemma scenario_257_not_marked :
  merged_max scenario_components = inr 257 /\
  V1_0_0.find_component scenario_components (scenario_object [])
    = inr (Found 1 {[ 256; 257 ]} 257) /\
  Py.int "257" = Some 257 /\
  map vertex_groups (V1_0_0.WWMI_OT_auto_fix_vgs_execute (scenario [])).2
    <> [["Check257"; "258"; "5"]] /\
  map vertex_groups (V1_1_0.WWMI_OT_auto_fix_vgs_execute (scenario [])).2
    <> [["Check257"; "258"; "5"]].
Proof.
  split; [vm_compute; reflexivity|].
  split; [vm_compute; reflexivity|].
  split; [vm_compute; reflexivity|].
  split; vm_compute; discriminate.
Qed.

(** C1, amended.  In the scenario the merged maximum is 257 and the
    threshold is 1; both versions finish with one object processed and
    leave all three groups, "257", "258" and "5", as they are: each of the
    three numbers is above the threshold, and that test comes before the
    exception test. *)
Theorem scenario_names_kept (vs : list MeshVertex) :
  V1_0_0.load (scenario vs)
    = inr {| V1_0_0.components := scenario_components;
             V1_0_0.merged_max_vg := 257;
             V1_0_0.threshold := 1 |} /\
  V1_0_0.WWMI_OT_auto_fix_vgs_execute (scenario vs)
    = (Returned FINISHED INFO (AutoFixed 1), [scenario_object vs]) /\
  V1_1_0.WWMI_OT_auto_fix_vgs_execute (scenario vs)
    = (Returned FINISHED INFO (AutoFixed 1), [scenario_object vs]) /\
  V1_0_0.fix_vg 1 {[ 256; 257 ]} 257 "257" = KeptAboveThreshold /\
  V1_1_0.fix_vg 1 ∅ {[ 256; 257 ]} 257 "257" = KeptAboveThreshold.
Proof.
  repeat split; vm_compute; reflexivity.
Qed.






(** C9.  In both versions the vertex-group loop never ends in the
    "already has Check" branch.  A group in one of the exception branches
    has a name that reads as an integer; no such name starts with "Check".
    A name made of "Check" and digits does not read as an integer, so the
    loop takes the not-numeric branch and leaves it as it is. *)
Theorem check_guard_unreachable :
  (forall t exception_vgs cmax name,
     V1_0_0.fix_vg t exception_vgs cmax name <> KeptHasCheck) /\
  (forall t global_vgs local_vg_map cmax name,
     V1_1_0.fix_vg t global_vgs local_vg_map cmax name <> KeptHasCheck) /\
  (forall t exception_vgs cmax name,
     (V1_0_0.fix_vg t exception_vgs cmax name = KeptException \/
      exists new_name,
        V1_0_0.fix_vg t exception_vgs cmax name = MarkedCheck new_name) ->
     exists n, Py.int name = Some n) /\
  (forall t global_vgs local_vg_map cmax name,
     (V1_1_0.fix_vg t global_vgs local_vg_map cmax name = KeptException \/
      exists new_name,
        V1_1_0.fix_vg t global_vgs local_vg_map cmax name
          = MarkedCheck new_name) ->
     exists n, Py.int name = Some n) /\
  (forall name n, Py.int name = Some n -> Py.startswith name "Check" = false) /\
  (forall d, digits d ->
     Py.int ("Check" +:+ d) = None /\
     (forall t exception_vgs cmax,
        V1_0_0.fix_vg t exception_vgs cmax ("Check" +:+ d) = NotNumeric /\
        name_after ("Check" +:+ d)
          (V1_0_0.fix_vg t exception_vgs cmax ("Check" +:+ d))
          = "Check" +:+ d) /\
     (forall t global_vgs local_vg_map cmax,
        V1_1_0.fix_vg t global_vgs local_vg_map cmax ("Check" +:+ d)
          = NotNumeric /\
        name_after ("Check" +:+ d)
          (V1_1_0.fix_vg t global_vgs local_vg_map cmax ("Check" +:+ d))
          = "Check" +:+ d)).
Proof.
  split; [|split; [|split; [|split; [|split]]]].
  - intros t ex cmax name. rewrite fix_vg_no_global.
    apply fix_vg_never_has_check.
  - intros t g ex cmax name. apply fix_vg_never_has_check.
  - intros t ex cmax name H. rewrite fix_vg_no_global in H.
    apply (fix_vg_numeric t ∅ ex cmax).
    destruct H as [H|[new H]]; rewrite H; discriminate.
  - intros t g ex cmax name H. apply (fix_vg_numeric t g ex cmax).
    destruct H as [H|[new H]]; rewrite H; discriminate.
  - apply int_not_startswith_Check.
  - intros d _. split; [apply int_Check|]. split.
    + intros t ex cmax. rewrite fix_vg_no_global.
      rewrite fix_vg_not_numeric by apply int_Check. split; reflexivity.
    + intros t g ex cmax.
      rewrite fix_vg_not_numeric by apply int_Check. split; reflexivity.
Qed.

(** The theorem at the names "257" and "Check257". *)
Lemma check_guard_unreachable_witness :
  Py.startswith "257" "Check" = false /\
  V1_1_0.fix_vg 344 ∅ {[ 257 ]} 600 "Check257" = NotNumeric.
Proof.
  destruct check_guard_unreachable as (_ & _ & _ & _ & H & H').
  split.
  - apply (H "257" 257). vm_compute. reflexivity.
  - destruct (H' "257") as (_ & _ & H2).
    + split; [reflexivity | discriminate].
    + apply (H2 344 ∅ {[ 257 ]} 600).
Defined.




(** C8.  [remove_zero_weight_vgroups], the same in both versions, first
    collects, over the unchanged object, the groups to delete and only
    then removes them.  A group is collected exactly when no vertex of
    the mesh has an entry with that group's index.  The groups left are
    those that some vertex lists, in their old order.  Only the indices in
    the entries matter: two objects with the same groups whose vertices
    list the same indices, with whatever weights, keep the same groups. *)
Theorem zero_weight_sweep (obj : Object) :
  V1_0_0.remove_zero_weight_vgroups = V1_1_0.remove_zero_weight_vgroups /\
  V1_0_0.remove_zero_weight_vgroups obj
    = remove_all 0 (scan obj 0 (vertex_groups obj)) obj /\
  (forall i, (i < length (vertex_groups obj))%nat ->
     (i ∈ scan obj 0 (vertex_groups obj) <->
      ~ exists v g, v ∈ vertices obj /\ g ∈ groups v /\ group g = i)) /\
  (forall i, used obj i = true <->
     exists v g, v ∈ vertices obj /\ g ∈ groups v /\ group g = i) /\
  vertex_groups (V1_0_0.remove_zero_weight_vgroups obj)
    = (filter (fun p => used obj p.1 = true)
         (imap pair (vertex_groups obj))).*2 /\
  (forall obj',
     vertex_groups obj' = vertex_groups obj ->
     map (fun v => map group (groups v)) (vertices obj')
       = map (fun v => map group (groups v)) (vertices obj) ->
     vertex_groups (V1_0_0.remove_zero_weight_vgroups obj')
       = vertex_groups (V1_0_0.remove_zero_weight_vgroups obj)).
Proof.
  split; [reflexivity|]. split; [reflexivity|]. split; [|split; [|split]].
  - intros i Hi. rewrite elem_of_scan, <- used_iff. split.
    + intros [_ Hu]. rewrite Hu. discriminate.
    + intros Hu. split; [lia|]. destruct (used obj i); [contradiction|reflexivity].
  - apply used_iff.
  - apply sweep_vertex_groups.
  - intros obj' Hvgs Hidx.
    unfold V1_0_0.remove_zero_weight_vgroups.
    rewrite !sweep_vertex_groups, Hvgs. f_equal.
    apply list_filter_iff. intros [i vg]. simpl.
    rewrite (used_indices obj' obj i Hidx). reflexivity.
Qed.

(** The theorem at an object with groups "1", "2", "3" whose only vertex
    lists group 1 with weight zero: group 0 is collected, and a weight of
    one half instead of zero leaves the same groups. *)
Lemma zero_weight_sweep_witness :
  0%nat ∈ scan limp 0 (vertex_groups limp) /\
  vertex_groups (V1_0_0.remove_zero_weight_vgroups limp') = ["2"].
Proof.
  destruct (zero_weight_sweep limp) as (_ & _ & H1 & _ & _ & H2). split.
  - apply (H1 0%nat); [simpl; lia|].
    intros (v & g & Hv & Hg & Heq).
    apply list_elem_of_singleton in Hv. subst v.
    apply list_elem_of_singleton in Hg. subst g. discriminate.
  - rewrite (H2 limp'); reflexivity.
Defined.

(** C5, at the input where 1.1.0 departs from it.  The metadata is
    [{"components": [{"vg_map": {"a": 600}}, {"vg_map": {}}]}] and the
    selection is "Component 1" followed by "Component 0", each with one
    group "3".  1.0.0 skips "Component 1", whose [vg_map] is empty, leaves
    it untouched, goes on to "Component 0", renames its group to "259"
    and reports one object.  1.1.0 raises [ValueError] from [max] at
    "Component 1"; nothing catches it, and "Component 0" is never
    reached. *)
Theorem empty_vg_map_skipped_or_fatal :
  V1_0_0.find_component hollow_components (mesh "Component 1" ["3"] [])
    = inr (NoVgMap 1) /\
  V1_0_0.WWMI_OT_auto_fix_vgs_execute hollow
    = (Returned FINISHED INFO (AutoFixed 1),
       [mesh "Component 1" ["3"] []; mesh "Component 0" ["259"] []]) /\
  V1_1_0.find_component hollow_components (mesh "Component 1" ["3"] [])
    = inl Py.ValueError /\
  V1_1_0.WWMI_OT_auto_fix_vgs_execute hollow
    = (Uncaught Py.ValueError,
       [mesh "Component 1" ["3"] []; mesh "Component 0" ["3"] []]).
Proof.
  repeat split; vm_compute; reflexivity.
Qed.




(** C10.  When the document has at most three components and each has a
    non-empty [vg_map], the global exception set of 1.1.0 is empty and
    the two versions of Auto Fix leave the same objects behind, vertex
    group by vertex group; with a path set they also return the same
    status and count. *)
Theorem versions_agree_up_to_three (ctx : Context)
    (metadata : Metadata.Document) (cs : list Metadata.Component) :
  json_load ctx = inr metadata ->
  Metadata.components metadata = Some cs ->
  (length cs <= 3)%nat ->
  Forall (fun comp => exists d, Metadata.vg_map comp = Some d /\ d <> ∅) cs ->
  V1_1_0.global_exceptions 0 cs ∅ = inr ∅ /\
  (forall l, V1_1_0.load ctx = inr l -> V1_1_0.global_exception_vgs l = ∅) /\
  (V1_0_0.WWMI_OT_auto_fix_vgs_execute ctx).2
    = (V1_1_0.WWMI_OT_auto_fix_vgs_execute ctx).2 /\
  (Py.is_empty (wwmi_vg_metadata_path ctx) = false ->
   V1_0_0.WWMI_OT_auto_fix_vgs_execute ctx
     = V1_1_0.WWMI_OT_auto_fix_vgs_execute ctx).
Proof.
  intros Hmd Hcs Hlen Hall.
  assert (Hg : V1_1_0.global_exceptions 0 cs ∅ = inr ∅)
    by (apply global_exceptions_short; simpl; lia).
  split; [exact Hg|]. split.
  { intros l Hl.
    destruct (load_ok_1_1_0 _ _ Hl) as (md & _ & _ & Hmd' & Hcs' & _ & _ & _ & Hg').
    assert (Hl' : V1_1_0.components l = cs) by congruence.
    rewrite Hl', Hg in Hg'. congruence. }
  assert (Hrun : isfile ctx = true -> cs <> [] ->
            Py.is_empty (wwmi_vg_metadata_path ctx) = false ->
            V1_0_0.WWMI_OT_auto_fix_vgs_execute ctx
            = V1_1_0.WWMI_OT_auto_fix_vgs_execute ctx).
  { intros Hf Hne Hp.
    unfold V1_0_0.WWMI_OT_auto_fix_vgs_execute,
      V1_1_0.WWMI_OT_auto_fix_vgs_execute, V1_0_0.load, V1_1_0.load.
    rewrite Hp, Hf, Hmd, Hcs. simpl. destruct cs as [|c cs']; [congruence|].
    rewrite Hg.
    destruct (merged_max (c :: cs')) as [e|m] eqn:Hm.
    - exfalso. pose proof Hall as Hall'.
      apply Forall_cons in Hall' as [(d & Hd & Hdne) _].
      destruct (map_choose d Hdne) as (k & v & Hk).
      destruct (merged_max_total (c :: cs') v) as [m' Hm'].
      + eapply Forall_impl; [exact Hall|]. intros comp (d' & -> & _). eauto.
      + exists c, d, k. split; [left|]; auto.
      + congruence.
    - rewrite (for_objects_ext _
                 (V1_1_0.fix_object
                    {| V1_1_0.components := c :: cs';
                       V1_1_0.merged_max_vg := m;
                       V1_1_0.threshold := m - 256;
                       V1_1_0.global_exception_vgs := ∅ |}
                    (wwmi_vg_remove_zero ctx))).
      + reflexivity.
      + intros obj _. apply fix_object_agree; auto. }
  destruct (Py.is_empty (wwmi_vg_metadata_path ctx)) eqn:Hp.
  { split; [|discriminate].
    unfold V1_0_0.WWMI_OT_auto_fix_vgs_execute,
      V1_1_0.WWMI_OT_auto_fix_vgs_execute, V1_0_0.load, V1_1_0.load.
    rewrite Hp. reflexivity. }
  assert (Heq : V1_0_0.WWMI_OT_auto_fix_vgs_execute ctx
                = V1_1_0.WWMI_OT_auto_fix_vgs_execute ctx).
  { destruct (isfile ctx) eqn:Hf.
    - destruct cs as [|c cs'] eqn:Hcs'; [|apply Hrun; congruence].
      unfold V1_0_0.WWMI_OT_auto_fix_vgs_execute,
        V1_1_0.WWMI_OT_auto_fix_vgs_execute, V1_0_0.load, V1_1_0.load.
      rewrite Hp, Hf, Hmd, Hcs. reflexivity.
    - unfold V1_0_0.WWMI_OT_auto_fix_vgs_execute,
        V1_1_0.WWMI_OT_auto_fix_vgs_execute, V1_0_0.load, V1_1_0.load.
      rewrite Hp, Hf. reflexivity. }
  split; [rewrite Heq; reflexivity | intros _; exact Heq].
Qed.

(** The theorem at the end-to-end scenario, which has two components. *)
Lemma versions_agree_up_to_three_witness :
  (V1_0_0.WWMI_OT_auto_fix_vgs_execute (scenario [])).2
  = (V1_1_0.WWMI_OT_auto_fix_vgs_execute (scenario [])).2.
Proof.
  destruct (versions_agree_up_to_three (scenario [])
              {| Metadata.components := Some scenario_components |}
              scenario_components) as (_ & _ & H & _).
  - reflexivity.
  - reflexivity.
  - simpl. lia.
  - repeat constructor; eexists; (split; [reflexivity|]);
      intros H; apply (f_equal size) in H; vm_compute in H; discriminate.
  - exact H.
Defined.

End Claims.

(** ** Further properties of the operators *)

Section Further.
Import Bpy Common.

Local Open Scope string_scope.

(** *** Helper facts *)


Lemma load_reselect_1_1_0 (ctx : Context) (objs : list Object) :
  V1_1_0.load (reselect ctx objs) = V1_1_0.load ctx.
Proof. reflexivity. Qed.





(** *** The theorems *)









(** X4.  A selected object that is not a mesh comes out of Auto Fix, in
    either version, and out of Remove "Check" Prefix exactly as it went
    in. *)
Theorem non_mesh_untouched (ctx : Context) (i : nat) (obj : Object) :
  selected_objects ctx !! i = Some obj ->
  obj_type obj <> "MESH" ->
  (V1_0_0.WWMI_OT_auto_fix_vgs_execute ctx).2 !! i = Some obj /\
  (V1_1_0.WWMI_OT_auto_fix_vgs_execute ctx).2 !! i = Some obj /\
  (V1_0_0.WWMI_OT_remove_check_prefix_execute ctx).2 !! i = Some obj /\
  (V1_1_0.WWMI_OT_remove_check_prefix_execute ctx).2 !! i = Some obj.
Proof.
  intros Hi Hty.
  assert (Hneq : String.eqb (obj_type obj) "MESH" = false)
    by (destruct (String.eqb_spec (obj_type obj) "MESH"); congruence).
  split; [|split; [|split]].
  - unfold V1_0_0.WWMI_OT_auto_fix_vgs_execute.
    destruct (V1_0_0.load ctx) as [out|l]; [exact Hi|].
    destruct (for_objects_lookup
                (V1_0_0.fix_object l (wwmi_vg_remove_zero ctx))
                _ 0%nat _ _ Hi) as (obj' & Hobj' & H).
    destruct (for_objects _ _ _) as [objs r]. simpl in *.
    destruct r; simpl; rewrite Hobj'; f_equal;
      (destruct H as [->|[counted Hb]]; [reflexivity|]);
      assert (Hnm : V1_0_0.fix_object l (wwmi_vg_remove_zero ctx) obj
                    = inr (obj, false))
        by (unfold V1_0_0.fix_object, V1_0_0.find_component;
            rewrite Hneq; reflexivity);
      congruence.
  - unfold V1_1_0.WWMI_OT_auto_fix_vgs_execute.
    destruct (V1_1_0.load ctx) as [out|l]; [exact Hi|].
    destruct (for_objects_lookup
                (V1_1_0.fix_object l (wwmi_vg_remove_zero ctx))
                _ 0%nat _ _ Hi) as (obj' & Hobj' & H).
    destruct (for_objects _ _ _) as [objs r]. simpl in *.
    destruct r; simpl; rewrite Hobj'; f_equal;
      (destruct H as [->|[counted Hb]]; [reflexivity|]);
      assert (Hnm : V1_1_0.fix_object l (wwmi_vg_remove_zero ctx) obj
                    = inr (obj, false))
        by (unfold V1_1_0.fix_object, V1_1_0.find_component;
            rewrite Hneq; reflexivity);
      congruence.
  - unfold V1_0_0.WWMI_OT_remove_check_prefix_execute.
    rewrite remove_check_prefix_objects, map_lookup, Hi. simpl.
    unfold remove_check_prefix_result. rewrite Hneq. reflexivity.
  - unfold V1_1_0.WWMI_OT_remove_check_prefix_execute.
    rewrite remove_check_prefix_objects, map_lookup, Hi. simpl.
    unfold remove_check_prefix_result. rewrite Hneq. reflexivity.
Qed.

(** The theorem at a lamp named "Component 0" selected under the wide
    metadata. *)
Lemma non_mesh_untouched_witness :
  (V1_0_0.WWMI_OT_auto_fix_vgs_execute (reselect (wide []) [lamp])).2
    !! 0%nat = Some lamp.
Proof.
  apply (non_mesh_untouched (reselect (wide []) [lamp]) 0 lamp).
  - reflexivity.
  - vm_compute. discriminate.
Defined.

(** The sweep changes neither the type nor the name of an object nor the
    number of its vertices. *)
Lemma remove_all_shape (removed : nat) (vg_to_delete : list nat)
    (obj : Object) :
  obj_type (remove_all removed vg_to_delete obj) = obj_type obj /\
  obj_name (remove_all removed vg_to_delete obj) = obj_name obj /\
  length (vertices (remove_all removed vg_to_delete obj))
    = length (vertices obj).
Proof.
  revert removed obj. induction vg_to_delete as [|i rest IH];
    intros removed obj; simpl; [auto|].
  destruct (IH (S removed) (vertex_groups_remove obj (i - removed)%nat))
    as (H1 & H2 & H3).
  rewrite H1, H2, H3. simpl. rewrite length_map. auto.
Qed.

Lemma sweep_length (obj : Object) :
  (length (vertex_groups (remove_zero_weight_vgroups obj))
   <= length (vertex_groups obj))%nat.
Proof.
  rewrite sweep_vertex_groups, length_fmap.
  etransitivity; [apply length_filter|]. rewrite length_imap. reflexivity.
Qed.

Lemma scan_nil (obj : Object) (b : nat) (vgs : list string) :
  (forall i, (b <= i < b + length vgs)%nat -> used obj i = true) ->
  scan obj b vgs = [].
Proof.
  intros H. destruct (scan obj b vgs) as [|i rest] eqn:Hs; [reflexivity|].
  assert (Hi : i ∈ scan obj b vgs) by (rewrite Hs; left).
  apply elem_of_scan in Hi as [Hr Hu]. rewrite (H i Hr) in Hu. discriminate.
Qed.

(** What one removal does to [used]: the indices from the removed one on
    now stand for the groups one further up. *)
Lemma used_after_remove (obj : Object) (j j' : nat) :
  used (vertex_groups_remove obj j) j'
  = used obj (if (j' <? j)%nat then j' else S j').
Proof.
  unfold used. simpl. induction (vertices obj) as [|v vs IHv]; simpl;
    [reflexivity|].
  rewrite IHv. f_equal. clear.
  induction (groups v) as [|g gs IH]; [reflexivity|].
  cbn [omap list_omap existsb].
  destruct (Nat.eqb_spec (group g) j) as [Hgj|Hgj].
  - rewrite IH. cbn [existsb].
    destruct (Nat.ltb_spec j' j);
      repeat match goal with
             | |- context [Nat.eqb ?a ?b] => destruct (Nat.eqb_spec a b)
             end; try reflexivity; lia.
  - destruct (Nat.ltb_spec j (group g)); cbn [existsb group]; rewrite IH;
      f_equal; destruct (Nat.ltb_spec j' j);
      repeat match goal with
             | |- context [Nat.eqb ?a ?b] => destruct (Nat.eqb_spec a b)
             end; try reflexivity; lia.
Qed.

(** After the removal loop every group left is listed by some vertex. *)
Lemma remove_all_used (obj0 : Object) (vgs pre : list string)
    (removed b : nat) (cur : Object) :
  b = (removed + length pre)%nat ->
  vertex_groups cur = (pre ++ vgs)%list ->
  (forall j, (j < length pre)%nat -> used cur j = true) ->
  (forall j, (length pre <= j)%nat -> used cur j = used obj0 (j + removed)) ->
  forall j,
    (j < length (vertex_groups (remove_all removed (scan obj0 b vgs) cur)))%nat ->
    used (remove_all removed (scan obj0 b vgs) cur) j = true.
Proof.
  revert pre removed b cur. induction vgs as [|vg rest IH];
    intros pre removed b cur Hb Hvgs Hpre Hpost j.
  - simpl. rewrite Hvgs, app_nil_r. apply Hpre.
  - simpl. destruct (used obj0 b) eqn:Hu.
    + apply (IH (pre ++ [vg])%list removed (S b) cur).
      * rewrite length_app. simpl. lia.
      * rewrite Hvgs, <- app_assoc. reflexivity.
      * intros j0. rewrite length_app. simpl. intros Hj0.
        destruct (decide (j0 < length pre)%nat) as [Hlt|Hge]; [auto|].
        rewrite Hpost by lia. replace (j0 + removed)%nat with b by lia.
        exact Hu.
      * intros j0. rewrite length_app. simpl. intros Hj0. apply Hpost. lia.
    + simpl. replace (b - removed)%nat with (length pre) by lia.
      apply (IH pre (S removed) (S b)
               (vertex_groups_remove cur (length pre))).
      * lia.
      * simpl. rewrite Hvgs. apply delete_middle.
      * intros j0 Hj0. rewrite used_after_remove.
        destruct (Nat.ltb_spec j0 (length pre)); [auto | lia].
      * intros j0 Hj0. rewrite used_after_remove.
        destruct (Nat.ltb_spec j0 (length pre)); [lia|].
        rewrite Hpost by lia. f_equal. lia.
Qed.

Lemma filter_none {A} (P : A -> Prop) `{forall x, Decision (P x)}
    (l : list A) :
  (forall x, ~ P x) -> filter P l = [].
Proof.
  intros HP. induction l as [|x l IH]; [reflexivity|].
  rewrite filter_cons, decide_False by apply HP. exact IH.
Qed.

(** X5.  Auto Fix, in either version and however it ends, hands back as
    many objects as were selected, each with its type, its name and its
    number of vertices; it never adds a vertex group; and with the
    zero-weight option off it keeps the vertices and the number of groups
    of every object. *)
Theorem auto_fix_keeps_shape (ctx : Context) :
  length (V1_0_0.WWMI_OT_auto_fix_vgs_execute ctx).2
    = length (selected_objects ctx) /\
  length (V1_1_0.WWMI_OT_auto_fix_vgs_execute ctx).2
    = length (selected_objects ctx) /\
  (forall i obj obj',
     selected_objects ctx !! i = Some obj ->
     (V1_0_0.WWMI_OT_auto_fix_vgs_execute ctx).2 !! i = Some obj' \/
     (V1_1_0.WWMI_OT_auto_fix_vgs_execute ctx).2 !! i = Some obj' ->
     obj_type obj' = obj_type obj /\
     obj_name obj' = obj_name obj /\
     length (vertices obj') = length (vertices obj) /\
     (length (vertex_groups obj') <= length (vertex_groups obj))%nat /\
     (wwmi_vg_remove_zero ctx = false ->
      vertices obj' = vertices obj /\
      length (vertex_groups obj') = length (vertex_groups obj))).
Proof.
  assert (Hshape : forall (f : string -> string) obj,
    let obj' := cleanup (wwmi_vg_remove_zero ctx)
                  (set_vertex_groups obj (map f (vertex_groups obj))) in
    obj_type obj' = obj_type obj /\
    obj_name obj' = obj_name obj /\
    length (vertices obj') = length (vertices obj) /\
    (length (vertex_groups obj') <= length (vertex_groups obj))%nat /\
    (wwmi_vg_remove_zero ctx = false ->
     vertices obj' = vertices obj /\
     length (vertex_groups obj') = length (vertex_groups obj))).
  { intros f obj obj'. unfold obj', cleanup.
    destruct (wwmi_vg_remove_zero ctx).
    - unfold remove_zero_weight_vgroups.
      destruct (remove_all_shape 0
                  (scan (set_vertex_groups obj (map f (vertex_groups obj))) 0
                     (vertex_groups
                        (set_vertex_groups obj (map f (vertex_groups obj)))))
                  (set_vertex_groups obj (map f (vertex_groups obj))))
        as (H1 & H2 & H3).
      rewrite H1, H2, H3. simpl. repeat split; try discriminate.
      etransitivity;
        [apply (sweep_length
                  (set_vertex_groups obj (map f (vertex_groups obj))))|].
      simpl. rewrite length_map. reflexivity.
    - simpl. rewrite length_map. repeat split; reflexivity. }
  split; [|split].
  - unfold V1_0_0.WWMI_OT_auto_fix_vgs_execute.
    destruct (V1_0_0.load ctx) as [out|l]; [reflexivity|].
    pose proof (for_objects_length
                  (V1_0_0.fix_object l (wwmi_vg_remove_zero ctx))
                  (selected_objects ctx) 0) as Hlen.
    destruct (for_objects _ _ _) as [objs [e|n]]; exact Hlen.
  - unfold V1_1_0.WWMI_OT_auto_fix_vgs_execute.
    destruct (V1_1_0.load ctx) as [out|l]; [reflexivity|].
    pose proof (for_objects_length
                  (V1_1_0.fix_object l (wwmi_vg_remove_zero ctx))
                  (selected_objects ctx) 0) as Hlen.
    destruct (for_objects _ _ _) as [objs [e|n]]; exact Hlen.
  - intros i obj obj' Hi [H|H].
    + destruct (V1_0_0.load ctx) as [out|l] eqn:Hl.
      * revert H. unfold V1_0_0.WWMI_OT_auto_fix_vgs_execute. rewrite Hl.
        simpl. rewrite Hi. intros [= <-]. auto 10.
      * rewrite (execute_1_0_0_objects _ _ Hl) in H.
        destruct (for_objects_lookup
                    (V1_0_0.fix_object l (wwmi_vg_remove_zero ctx))
                    _ 0%nat _ _ Hi) as (o & Ho & Hcase).
        rewrite Ho in H. injection H as ->.
        destruct Hcase as [->|[counted Hb]]; [auto 10|].
        apply fix_object_1_0_0_inv in Hb
          as [[-> _]|(id & ex & cmax & _ & _ & ->)]; [auto 10|].
        apply Hshape.
    + destruct (V1_1_0.load ctx) as [out|l] eqn:Hl.
      * revert H. unfold V1_1_0.WWMI_OT_auto_fix_vgs_execute. rewrite Hl.
        simpl. rewrite Hi. intros [= <-]. auto 10.
      * rewrite (execute_1_1_0_objects _ _ Hl) in H.
        destruct (for_objects_lookup
                    (V1_1_0.fix_object l (wwmi_vg_remove_zero ctx))
                    _ 0%nat _ _ Hi) as (o & Ho & Hcase).
        rewrite Ho in H. injection H as ->.
        destruct Hcase as [->|[counted Hb]]; [auto 10|].
        apply fix_object_1_1_0_inv in Hb
          as [[-> _]|(id & ex & cmax & _ & _ & ->)]; [auto 10|].
        apply Hshape.
Qed.

(** The theorem at "Component 0" with three groups under the wide
    metadata. *)
Lemma auto_fix_keeps_shape_witness :
  length (vertex_groups (mesh "Component 0" ["259"; "Check7"; "Hips"] []))
  = length (vertex_groups (mesh "Component 0" ["3"; "7"; "Hips"] [])).
Proof.
  destruct (auto_fix_keeps_shape (wide ["3"; "7"; "Hips"])) as (_ & _ & H).
  destruct (H 0%nat (mesh "Component 0" ["3"; "7"; "Hips"] [])
              (mesh "Component 0" ["259"; "Check7"; "Hips"] []))
    as (_ & _ & _ & _ & H').
  - reflexivity.
  - left. vm_compute. reflexivity.
  - apply H'. reflexivity.
Defined.


(** X7.  Edge cases of the zero-weight sweep.  On a mesh without vertices
    it removes every vertex group.  On an object all of whose groups are
    listed by some vertex it changes nothing.  It never changes the type,
    the name or the number of vertices of the object and never adds a
    group. *)
Theorem zero_weight_sweep_edges (obj : Object) :
  (vertices obj = [] ->
   vertex_groups (V1_0_0.remove_zero_weight_vgroups obj) = []) /\
  ((forall i, (i < length (vertex_groups obj))%nat -> used obj i = true) ->
   V1_0_0.remove_zero_weight_vgroups obj = obj) /\
  obj_type (V1_0_0.remove_zero_weight_vgroups obj) = obj_type obj /\
  obj_name (V1_0_0.remove_zero_weight_vgroups obj) = obj_name obj /\
  length (vertices (V1_0_0.remove_zero_weight_vgroups obj))
    = length (vertices obj) /\
  (length (vertex_groups (V1_0_0.remove_zero_weight_vgroups obj))
   <= length (vertex_groups obj))%nat.
Proof.
  unfold V1_0_0.remove_zero_weight_vgroups.
  split; [|split].
  - intros Hv. rewrite sweep_vertex_groups.
    rewrite filter_none; [reflexivity|].
    intros [i vg]. unfold used. rewrite Hv. simpl. discriminate.
  - intros Hall. unfold remove_zero_weight_vgroups.
    rewrite scan_nil; [reflexivity|]. intros i Hi. apply Hall. lia.
  - destruct (remove_all_shape 0 (scan obj 0 (vertex_groups obj)) obj)
      as (H1 & H2 & H3).
    unfold remove_zero_weight_vgroups. rewrite H1, H2, H3.
    repeat split. apply sweep_length.
Qed.

(** The theorem at an object without vertices and at one whose only
    group is listed. *)
Lemma zero_weight_sweep_edges_witness :
  vertex_groups
    (V1_0_0.remove_zero_weight_vgroups (mesh "Component 0" ["1"; "2"] []))
    = [] /\
  V1_0_0.remove_zero_weight_vgroups
    (mesh "Component 0" ["1"]
       [ {| groups := [ {| group := 0; weight := Qmake 0 1 |} ] |} ])
  = mesh "Component 0" ["1"]
      [ {| groups := [ {| group := 0; weight := Qmake 0 1 |} ] |} ].
Proof.
  split.
  - apply (zero_weight_sweep_edges (mesh "Component 0" ["1"; "2"] [])).
    reflexivity.
  - apply (zero_weight_sweep_edges
             (mesh "Component 0" ["1"]
                [ {| groups := [ {| group := 0; weight := Qmake 0 1 |} ] |} ])).
    intros i Hi. simpl in Hi. assert (i = 0%nat) as -> by lia. reflexivity.
Defined.

(** X8.  After the zero-weight sweep every vertex group that is left is
    listed by some vertex, so a second sweep removes nothing.  This rests
    on the host moving the group indices of the vertices down when a group
    is removed. *)
Theorem zero_weight_sweep_settles (obj : Object) :
  (forall j,
     (j < length (vertex_groups (V1_0_0.remove_zero_weight_vgroups obj)))%nat ->
     used (V1_0_0.remove_zero_weight_vgroups obj) j = true) /\
  V1_0_0.remove_zero_weight_vgroups (V1_0_0.remove_zero_weight_vgroups obj)
    = V1_0_0.remove_zero_weight_vgroups obj.
Proof.
  assert (H : forall j,
    (j < length (vertex_groups (remove_zero_weight_vgroups obj)))%nat ->
    used (remove_zero_weight_vgroups obj) j = true).
  { unfold remove_zero_weight_vgroups.
    apply (remove_all_used obj (vertex_groups obj) [] 0 0 obj).
    - reflexivity.
    - reflexivity.
    - intros j Hj. simpl in Hj. lia.
    - intros j _. rewrite Nat.add_0_r. reflexivity. }
  split; [exact H|].
  unfold V1_0_0.remove_zero_weight_vgroups.
  unfold remove_zero_weight_vgroups at 1.
  rewrite scan_nil; [reflexivity|]. intros i Hi. apply H. lia.
Qed.

(** The theorem at the object with groups "1", "2", "3" whose only vertex
    lists the middle one. *)
Lemma zero_weight_sweep_settles_witness :
  used (V1_0_0.remove_zero_weight_vgroups limp) 0 = true.
Proof.
  apply (zero_weight_sweep_settles limp). vm_compute. lia.
Defined.

Lemma set_vertex_groups_same (obj : Object) :
  set_vertex_groups obj (vertex_groups obj) = obj.
Proof. destruct obj. reflexivity. Qed.






Lemma drop_while_app (p : ascii -> bool) (w s : string) :
  Py.all_chars p w = true ->
  Py.drop_while p (w +:+ s) = Py.drop_while p s.
Proof.
  induction w as [|c w IH]; [reflexivity|].
  intros H. simpl in H. apply andb_true_iff in H as [Hc Hw].
  rewrite app_cons. simpl. rewrite Hc. auto.
Qed.

Lemma take_while_app (p : ascii -> bool) (d r : string) :
  Py.all_chars p d = true ->
  Py.take_while p (d +:+ r) = d +:+ Py.take_while p r.
Proof.
  induction d as [|c d IH]; [reflexivity|].
  intros H. simpl in H. apply andb_true_iff in H as [Hc Hd].
  rewrite !app_cons. simpl. rewrite Hc. f_equal. auto.
Qed.

Lemma app_empty_r (s : string) : s +:+ EmptyString = s.
Proof.
  induction s as [|c s IH]; [reflexivity|]. rewrite app_cons, IH. reflexivity.
Qed.

Lemma isdecimal_not_re_space (c : ascii) :
  Py.isdecimal c = true -> Py.re_space c = false.
Proof.
  unfold Py.isdecimal, Py.re_space.
  intros [H1 H2]%andb_true_iff. apply N.leb_le in H1, H2.
  repeat (apply orb_false_iff; split);
    try (apply andb_false_iff;
         first [left; apply N.leb_gt; lia | right; apply N.leb_gt; lia]);
    try apply N.eqb_neq; lia.
Qed.

Lemma comp_name_search_here (s g : string) :
  comp_name_match_here s = Some g -> comp_name_search s = Some g.
Proof.
  intros H. destruct s as [|c s].
  - vm_compute in H. discriminate.
  - change (comp_name_search (String c s))
      with (match comp_name_match_here (String c s) with
            | Some g => Some g
            | None => comp_name_search s
            end).
    rewrite H. reflexivity.
Qed.

(** X10.  The component id is read off the object name by the first match
    of the pattern: whatever the name, the text found is a non-empty run
    of digits and reads as a non-negative integer, so the index into the
    components never counts from the end; and in a name that starts with
    "Component", any whitespace and digits, whatever follows the digits
    (a ".001" suffix, say) is ignored. *)
Theorem component_id_from_name :
  (forall s g1, comp_name_search s = Some g1 ->
     digits g1 /\ exists n, Py.int g1 = Some n /\ 0 <= n) /\
  (forall w d r,
     Py.all_chars Py.re_space w = true -> digits d ->
     Py.take_while Py.isdecimal r = EmptyString ->
     comp_name_search ("Component" +:+ (w +:+ (d +:+ r))) = Some d) /\
  (forall components obj comp_id s cmax,
     (V1_0_0.find_component components obj = inr (Found comp_id s cmax) \/
      V1_1_0.find_component components obj = inr (Found comp_id s cmax)) ->
     0 <= comp_id < Z.of_nat (length components)).
Proof.
  split; [|split].
  - intros s g1 H. pose proof (comp_name_search_digits _ _ H) as Hd.
    split; [exact Hd | apply int_digits_digits, Hd].
  - intros w d r Hw [Hall Hne] Hr. apply comp_name_search_here.
    unfold comp_name_match_here.
    rewrite strip_prefix_app, (drop_while_app _ _ _ Hw).
    assert (Hdrop : Py.drop_while Py.re_space (d +:+ r) = d +:+ r).
    { destruct d as [|c d]; [congruence|]. simpl in Hall.
      apply andb_true_iff in Hall as [Hc _]. rewrite app_cons. simpl.
      rewrite (isdecimal_not_re_space c Hc). reflexivity. }
    rewrite Hdrop, (take_while_app _ _ _ Hall), Hr, app_empty_r.
    destruct d; [congruence | reflexivity].
  - intros components obj comp_id s cmax [H|H].
    + apply find_component_1_0_0_found in H
        as (_ & g1 & comp & d & _ & _ & Hr & _). exact Hr.
    + apply find_component_1_1_0_found in H
        as (_ & g1 & comp & d & _ & _ & Hr & _). exact Hr.
Qed.

(** The theorem at the name "Component 12.001". *)
Lemma component_id_from_name_witness :
  comp_name_search "Component 12.001" = Some "12".
Proof.
  destruct component_id_from_name as (_ & H & _).
  apply (H " " "12" ".001").
  - reflexivity.
  - split; [reflexivity | discriminate].
  - reflexivity.
Defined.

(** X11.  The two versions of the vertex-group loop part ways only on a
    group whose number is at or below the threshold, in the global
    exception set and not in the component's own: 1.0.0 renames it to
    [str(n + 256)], 1.1.0 marks it with "Check" or, below a component
    maximum of 256, keeps it.  On every other name they agree. *)
Theorem versions_differ_on_global_only (t : Z) (g local : gset Z)
    (cmax : Z) (name : string) :
  ((forall n, Py.int name = Some n -> n ∈ g -> n ∈ local \/ n > t) ->
   V1_1_0.fix_vg t g local cmax name = V1_0_0.fix_vg t local cmax name) /\
  (forall n, Py.int name = Some n -> n <= t -> n ∈ g -> n ∉ local ->
   V1_0_0.fix_vg t local cmax name = Remapped (Py.str (n + 256)) /\
   V1_1_0.fix_vg t g local cmax name
     = if cmax >=? 256 then MarkedCheck ("Check" +:+ name)
       else KeptException).
Proof.
  split.
  - intros H. unfold V1_1_0.fix_vg, V1_0_0.fix_vg.
    destruct (Py.int name) as [n|]; [|reflexivity].
    rewrite Z.gtb_ltb. destruct (Z.ltb_spec t n); [reflexivity|].
    destruct (bool_decide (n ∈ local)) eqn:Hl; [rewrite orb_true_r; reflexivity|].
    destruct (bool_decide (n ∈ g)) eqn:Hg; [|reflexivity].
    apply bool_decide_eq_true_1 in Hg. apply bool_decide_eq_false_1 in Hl.
    destruct (H n eq_refl Hg); [contradiction | lia].
  - intros n Hint Hle Hg Hl. split.
    + rewrite fix_vg_no_global. apply fix_vg_remapped; auto.
      intros [H|H]%elem_of_union; [apply not_elem_of_empty in H; exact H|auto].
    + assert (Hin : n ∈ g ∪ local) by (apply elem_of_union; auto).
      rewrite Z.geb_leb. destruct (Z.leb_spec 256 cmax).
      * apply (fix_vg_exception_marked _ _ _ _ _ n); auto. lia.
      * apply (fix_vg_exception_kept _ _ _ _ _ n); auto.
Qed.

(** The theorem at the group "7" when 7 is reserved by a component at
    position 3 or later but not by the object's own. *)
Lemma versions_differ_on_global_only_witness :
  V1_0_0.fix_vg 344 {[ 600 ]} 600 "7" = Remapped "263" /\
  V1_1_0.fix_vg 344 {[ 7 ]} {[ 600 ]} 600 "7" = MarkedCheck "Check7".
Proof.
  destruct (versions_differ_on_global_only 344 {[ 7 ]} {[ 600 ]} 600 "7")
    as [_ H].
  apply (H 7).
  - vm_compute. reflexivity.
  - lia.
  - by_decide.
  - by_decide.
Defined.






(** X13.  Metadata whose greatest value is below 256 gives a negative
    threshold, and then the vertex-group loop of either version leaves
    untouched every object none of whose group names reads as a negative
    integer; names made of digits only never do. *)
Theorem small_metadata_changes_nothing (ctx : Context) :
  (forall l exception_vgs cmax obj,
     V1_0_0.load ctx = inr l -> V1_0_0.merged_max_vg l < 256 ->
     Forall (fun name => forall n, Py.int name = Some n -> 0 <= n)
            (vertex_groups obj) ->
     V1_0_0.fix_vgs (V1_0_0.threshold l) exception_vgs cmax obj = obj) /\
  (forall l local_vg_map cmax obj,
     V1_1_0.load ctx = inr l -> V1_1_0.merged_max_vg l < 256 ->
     Forall (fun name => forall n, Py.int name = Some n -> 0 <= n)
            (vertex_groups obj) ->
     V1_1_0.fix_vgs (V1_1_0.threshold l) (V1_1_0.global_exception_vgs l)
       local_vg_map cmax obj = obj) /\
  (forall name n, digits name -> Py.int name = Some n -> 0 <= n).
Proof.
  assert (Hcore : forall t g local cmax obj,
    t < 0 ->
    Forall (fun name => forall n, Py.int name = Some n -> 0 <= n)
           (vertex_groups obj) ->
    V1_1_0.fix_vgs t g local cmax obj = obj).
  { intros t g local cmax obj Ht Hall. unfold V1_1_0.fix_vgs.
    rewrite <- (set_vertex_groups_same obj) at 3. f_equal.
    induction Hall as [|name names Hname _ IH]; [reflexivity|].
    simpl. rewrite IH. f_equal.
    destruct (Py.int name) as [n|] eqn:Hint.
    - rewrite (fix_vg_above _ _ _ _ _ n Hint); [reflexivity|].
      specialize (Hname n eq_refl). lia.
    - rewrite (fix_vg_not_numeric _ _ _ _ _ Hint). reflexivity. }
  split; [|split].
  - intros l ex cmax obj Hl Hm Hall.
    destruct (load_ok_1_0_0 _ _ Hl) as (_ & _ & _ & _ & _ & _ & _ & Ht).
    rewrite fix_vgs_no_global. apply Hcore; [lia | exact Hall].
  - intros l ex cmax obj Hl Hm Hall.
    destruct (load_ok_1_1_0 _ _ Hl) as (_ & _ & _ & _ & _ & _ & _ & Ht & _).
    apply Hcore; [lia | exact Hall].
  - intros name n Hd Hint.
    destruct (int_digits_digits _ Hd) as (m & Hm & Hm0). congruence.
Qed.

(** The theorem at [{"vg_map": {"a": 0, "b": 100}}] and an object with
    the groups "0", "100" and "Hips". *)
Lemma small_metadata_changes_nothing_witness :
  V1_0_0.fix_vgs (-156) {[ 0; 100 ]} 100
    (mesh "Component 0" ["0"; "100"; "Hips"] [])
  = mesh "Component 0" ["0"; "100"; "Hips"] [].
Proof.
  destruct (small_metadata_changes_nothing
              (context_of
                 (inr {| Metadata.components :=
                           Some [ {| Metadata.vg_map :=
                                       Some {[ "a" := 0; "b" := 100 ]} |} ] |})
                 false [])) as [H _].
  apply (H {| V1_0_0.components :=
                [ {| Metadata.vg_map := Some {[ "a" := 0; "b" := 100 ]} |} ];
              V1_0_0.merged_max_vg := 100;
              V1_0_0.threshold := -156 |}).
  - vm_compute. reflexivity.
  - simpl. lia.
  - repeat constructor; intros n Hn; vm_compute in Hn;
      try discriminate; injection Hn as <-; lia.
Defined.



(** X15.  The two versions load the same metadata: one gets to its object
    loop exactly when the other does, and then with the same components,
    the same merged maximum and the same threshold. *)
Theorem loads_agree (ctx : Context) :
  (forall l0, V1_0_0.load ctx = inr l0 ->
     exists l1, V1_1_0.load ctx = inr l1 /\
       V1_1_0.components l1 = V1_0_0.components l0 /\
       V1_1_0.merged_max_vg l1 = V1_0_0.merged_max_vg l0 /\
       V1_1_0.threshold l1 = V1_0_0.threshold l0) /\
  (forall l1, V1_1_0.load ctx = inr l1 ->
     exists l0, V1_0_0.load ctx = inr l0 /\
       V1_1_0.components l1 = V1_0_0.components l0 /\
       V1_1_0.merged_max_vg l1 = V1_0_0.merged_max_vg l0 /\
       V1_1_0.threshold l1 = V1_0_0.threshold l0).
Proof.
  unfold V1_0_0.load, V1_1_0.load.
  destruct (Py.is_empty _); simpl; [split; intros ? [=]|].
  destruct (isfile ctx); simpl; [|split; intros ? [=]].
  destruct (json_load ctx) as [e|md]; [split; intros ? [=]|].
  destruct (Metadata.components md) as [[|c cs]|];
    [split; intros ? [=]| |split; intros ? [=]].
  destruct (merged_max (c :: cs)) as [e|m] eqn:Hm; [split; intros ? [=]|].
  destruct (global_exceptions_total (c :: cs) 0 ∅
              (merged_max_keys _ _ Hm)) as [g ->].
  split; intros ? [= <-]; eexists; simpl; auto.
Qed.

(** The theorem at the end-to-end scenario. *)
Lemma loads_agree_witness :
  exists l1, V1_1_0.load (scenario []) = inr l1 /\ V1_1_0.threshold l1 = 1.
Proof.
  destruct (loads_agree (scenario [])) as [H _].
  destruct (H {| V1_0_0.components := scenario_components;
                 V1_0_0.merged_max_vg := 257;
                 V1_0_0.threshold := 1 |}) as (l1 & Hl1 & _ & _ & Ht).
  - vm_compute. reflexivity.
  - exists l1. split; [exact Hl1 | exact Ht].
Defined.



End Further.
